(** * Tamil Nadu government news dashboard: classifier, fetcher, correction file

    A shallow embedding of [government_analysis.py].

    - A Python [str] is the Rocq string of its UTF-8 encoding. [str.lower]
      is modelled as far as a test for an ASCII keyword can see it: the
      ASCII capitals go to their small letters, U+212A (Kelvin sign) goes to
      k and U+0130 (capital I with dot above) to i followed by U+0307; these
      are the only characters outside ASCII whose lower case contains an
      ASCII character. Every other character outside ASCII is left as it
      is, where Python may put another character outside ASCII.
    - [None] / a label is [option string]; an exception is a value of [exn]
      carried by [result].
    - The dictionary [search_queries] is a [gmap], the set [all_news] a [gset].
    - What the program obtains from outside (the feed reader, the clock, the
      date parser, the CSV reader) is a parameter of the model: nothing is
      assumed about it. *)

From Stdlib Require Import ZArith Ascii Strings.Byte Lia.
From stdpp Require Import base option list sorting strings gmap sets.

Local Open Scope Z_scope.

(** ** Python strings *)

Module Str.

(** [c.lower()] on one ASCII character: 'A'..'Z' move to 'a'..'z'. *)
Definition lower_char (c : ascii) : ascii :=
  let n := nat_of_ascii c in
  if ((65 <=? n) && (n <=? 90))%nat then ascii_of_nat (n + 32) else c.

(** U+212A KELVIN SIGN and U+0130 LATIN CAPITAL LETTER I WITH DOT ABOVE as
    they stand in a text encoded in UTF-8 (E2 84 AA and C4 B0). *)
Definition kelvin_sign : string :=
  String "226" (String "132" (String "170" EmptyString)).
Definition capital_dotted_I : string :=
  String "196" (String "176" EmptyString).

(** [s.lower()]: U+0130 becomes i and U+0307 (CC 87), U+212A becomes k, and
    every other byte is lowered on its own. *)
Fixpoint lower (s : string) : string :=
  match s with
  | EmptyString => EmptyString
  | String c s' =>
      match s' with
      | String c1 s'' =>
          if Ascii.eqb c "196" && Ascii.eqb c1 "176" then
            String "i" (String "204" (String "135" (lower s'')))
          else
            match s'' with
            | String c2 rest =>
                if Ascii.eqb c "226" && Ascii.eqb c1 "132" && Ascii.eqb c2 "170"
                then String "k" (lower rest)
                else String (lower_char c) (lower s')
            | EmptyString => String (lower_char c) (lower s')
            end
      | EmptyString => String (lower_char c) (lower s')
      end
  end.

(** The byte is an ASCII character. *)
Definition is_ascii (c : ascii) : bool := (nat_of_ascii c <? 128)%nat.

Fixpoint all_ascii (s : string) : bool :=
  match s with
  | EmptyString => true
  | String c s' => is_ascii c && all_ascii s'
  end.

(** The last character of [s] is the letter i. *)
Fixpoint ends_with_i (s : string) : bool :=
  match s with
  | EmptyString => false
  | String c EmptyString => Ascii.eqb c "i"
  | String _ s' => ends_with_i s'
  end.

(** [word in text]: [word] starts at some position of [text]. *)
Fixpoint contains (word text : string) : bool :=
  String.prefix word text ||
  match text with
  | EmptyString => false
  | String _ text' => contains word text'
  end.

(** [any(word in text for word in words)] *)
Definition any_in (words : list string) (text : string) : bool :=
  existsb (fun word => contains word text) words.

(** Truth value of [s] in a condition: only the empty string is false. *)
Definition nonempty (s : string) : bool :=
  match s with EmptyString => false | String _ _ => true end.

End Str.

(** ** Labels and keyword lists (lines 27-39) *)

Definition Govt_Analysis : string := "Govt Analysis".
Definition Protests_Against_Government : string := "Protests Against Government".

Definition Misgovernance : string := "Misgovernance (TN Govt Only)".
Definition Good_Governance : string := "Good Governance (TN Govt Only)".
Definition Anti_State : string := "Anti TN State Government".
Definition Anti_Central : string := "Anti Central Government".
Definition General_Protest : string := "General Protest".

Definition misgovernance_words : list string :=
  ["failure"; "misgovernance"; "corruption"; "controversy"].
Definition good_governance_words : list string :=
  ["success"; "achievement"; "development"; "growth"].
Definition state_words : list string :=
  ["dmk"; "stalin"; "tamil nadu government"].
Definition central_words : list string :=
  ["modi"; "bjp government"; "central government"].

(** ** [classify_governance_sentiment] (lines 24-41) *)

Definition classify_governance_sentiment (text category : string) : option string :=
  if String.eqb category Govt_Analysis then
    if Str.any_in misgovernance_words (Str.lower text) then Some Misgovernance
    else if Str.any_in good_governance_words (Str.lower text) then Some Good_Governance
    else None
  else if String.eqb category Protests_Against_Government then
    if Str.contains "dmk" (Str.lower text) || Str.contains "stalin" (Str.lower text)
       || Str.contains "tamil nadu government" (Str.lower text)
    then Some Anti_State
    else if Str.contains "modi" (Str.lower text) || Str.contains "bjp government" (Str.lower text)
            || Str.contains "central government" (Str.lower text)
    then Some Anti_Central
    else Some General_Protest
  else None.

(** ** Exceptions and results *)

Inductive exn : Type :=
| KeyError (key : string)
| ValueError (data : string)
| UnicodeDecodeError
| OtherError (name : string).

Inductive result (A : Type) : Type :=
| Ok (a : A)
| Raise (e : exn).
Arguments Ok {A} a.
Arguments Raise {A} e.

Definition result_bind {A B : Type} (k : A -> result B) (r : result A) : result B :=
  match r with
  | Ok a => k a
  | Raise e => Raise e
  end.

#[global] Instance result_mbind : MBind result := @result_bind.

(** [for x in xs: s = body(s, x)], stopping at the first exception. *)
Fixpoint for_each {S A : Type} (body : S -> A -> result S) (s : S) (xs : list A)
  : result S :=
  match xs with
  | [] => Ok s
  | x :: xs' => s' ← body s x; for_each body s' xs'
  end.

(** ** Configuration (lines 10-21) *)

Definition feedback_file : string := "corrected_labels.csv".

Definition misgovernance_feed : string :=
  "https://news.google.com/rss/search?q=Tamil+Nadu+government+failure+OR+misgovernance+OR+corruption+OR+controversy&hl=en-IN&gl=IN&ceid=IN:en".

Definition good_governance_feed : string :=
  "https://news.google.com/rss/search?q=Tamil+Nadu+government+success+OR+achievement+OR+development+OR+growth&hl=en-IN&gl=IN&ceid=IN:en".

Definition protest_feed : string :=
  "https://news.google.com/rss/search?q=Tamil+Nadu+protest+OR+strike+OR+agitation+OR+movement+OR+demonstration+OR+rally&hl=en-IN&gl=IN&ceid=IN:en".

Definition search_queries : gmap string (list string) :=
  <[ Govt_Analysis := [misgovernance_feed; good_governance_feed] ]>
  (<[ Protests_Against_Government := [protest_feed] ]> ∅).

(** ** Data *)

(** A feed entry that carries the three attributes the program reads:
    [entry.published], [entry.title], [entry.link]. The reader's entries are
    dictionaries, and reading an attribute an entry lacks raises
    AttributeError; the feeds considered here hold entries with all three. *)
Record entry : Type := {
  published : string;
  title : string;
  link : string
}.

(** One dictionary appended to [news_data] (lines 60-66). [Published_Date]
    is a calendar day, counted in days from the epoch. *)
Record news_item : Type := {
  Category : string;
  Title : string;
  Published_Date : Z;
  URL : string;
  Sentiment : string
}.

Record DataFrame (R : Type) : Type := {
  columns : list string;
  rows : list R
}.
Arguments columns {R} _.
Arguments rows {R} _.

Definition news_columns : list string :=
  ["Category"; "Title"; "Published Date"; "URL"; "Sentiment"].

(** ** Time

    A naive [datetime] is an instant counted in microseconds from the epoch;
    a [timedelta] is a difference of two instants. *)

Definition microseconds_per_day : Z := 86400000000.

(** [delta.days]: whole days, rounded towards minus infinity. *)
Definition timedelta_days (delta : Z) : Z := delta / microseconds_per_day.

(** [dt.date()] *)
Definition date_of (dt : Z) : Z := dt / microseconds_per_day.

(** ** The outside of one [fetch_news] call

    - [feedparser_parse url] are the entries of [feedparser.parse(url).entries];
    - [strptime s] is [datetime.strptime(s, "%a, %d %b %Y %H:%M:%S %Z")],
      [None] when it raises ValueError;
    - [utcnow k] is what the call number [k] (from 0) of [datetime.utcnow()]
      returns during the fetch; the half second slept after an entry
      (line 67) only shows in these readings. *)
Record world : Type := {
  feedparser_parse : string -> list entry;
  strptime : string -> option Z;
  utcnow : nat -> Z
}.

(** ** [fetch_news] (lines 45-69)

    The function as it runs when a call is not answered from the cache of
    line 44, which hands back the table of an earlier run with the same
    arguments. *)

Record loop_state : Type := {
  all_news : gset string;
  news_data : list news_item;
  clock_reads : nat
}.

Definition initial_state : loop_state :=
  {| all_news := ∅; news_data := []; clock_reads := 0 |}.

(** [days_ago <= days_filter] (lines 53 and 55) *)
Definition days_ago (now published_date : Z) : Z :=
  timedelta_days (now - published_date).

Definition passes_recency_filter (now published_date days_filter : Z) : bool :=
  days_ago now published_date <=? days_filter.

(** [if sentiment_label:] (line 58) *)
Definition truthy (sentiment_label : option string) : bool :=
  match sentiment_label with
  | Some label => Str.nonempty label
  | None => false
  end.

Definition make_item (selected_category : string) (e : entry) (published_date : Z)
    (sentiment_label : string) : news_item :=
  {| Category := selected_category;
     Title := title e;
     Published_Date := date_of published_date;
     URL := link e;
     Sentiment := sentiment_label |}.

(** The body of the inner loop (lines 52-67). *)
Definition process_entry (w : world) (selected_category : string) (days_filter : Z)
    (st : loop_state) (e : entry) : result loop_state :=
  match strptime w (published e) with
  | None => Raise (ValueError (published e))
  | Some published_date =>
      let now := utcnow w (clock_reads st) in
      let st := {| all_news := all_news st;
                   news_data := news_data st;
                   clock_reads := S (clock_reads st) |} in
      if passes_recency_filter now published_date days_filter then
        if bool_decide (title e ∈ all_news st) then Ok st
        else
          match classify_governance_sentiment (title e) selected_category with
          | Some sentiment_label =>
              if Str.nonempty sentiment_label then
                Ok {| all_news := {[ title e ]} ∪ all_news st;
                      news_data :=
                        news_data st ++
                        [make_item selected_category e published_date sentiment_label];
                      clock_reads := clock_reads st |}
              else Ok st
          | None => Ok st
          end
      else Ok st
  end.

Definition fetch_news (w : world) (selected_category : string) (days_filter : Z)
  : result (DataFrame news_item) :=
  match search_queries !! selected_category with
  | None => Raise (KeyError selected_category)
  | Some urls =>
      st ← for_each
             (fun st rss_url =>
                for_each (process_entry w selected_category days_filter) st
                         (feedparser_parse w rss_url))
             initial_state urls;
      Ok {| columns := news_columns; rows := news_data st |}
  end.

(** ** The presentation layer's label filter (lines 103 and 127) *)

Definition govt_labels : list string := [Good_Governance; Misgovernance].
Definition protest_labels : list string := [Anti_State; Anti_Central; General_Protest].

(** [df[df["Sentiment"].isin(labels)]] *)
Definition isin_Sentiment (labels : list string) (df : DataFrame news_item)
  : DataFrame news_item :=
  {| columns := columns df;
     rows := filter (fun r => Sentiment r ∈ labels) (rows df) |}.

(** [df_selected] of the two tabs (lines 102-103 and 126-127), for the day
    count chosen in the tab. *)
Definition df_selected_govt (w : world) (days : Z) : result (DataFrame news_item) :=
  df ← fetch_news w Govt_Analysis days;
  Ok (isin_Sentiment [Good_Governance; Misgovernance] df).

Definition df_selected_protests (w : world) (days : Z) : result (DataFrame news_item) :=
  df ← fetch_news w Protests_Against_Government days;
  Ok (isin_Sentiment [Anti_State; Anti_Central; General_Protest] df).

(** ** The correction file (lines 72-78 and 167-170) *)

Inductive encoding : Type := utf_8_sig | ISO_8859_1.

Section Corrections.

(** The cells of a table are whatever the table library stores in them; its
    CSV reader and writer are taken as they come:
    - [read_csv content enc] is [pd.read_csv(feedback_file, encoding=enc)]
      on a file holding [content];
    - [to_csv df] are the bytes [df.to_csv(feedback_file, index=False)]
      writes. *)
Variable cell : Type.
Variable read_csv : list byte -> encoding -> result (DataFrame (list cell)).
Variable to_csv : DataFrame (list cell) -> list byte.

(** [pd.DataFrame(columns=["Title", "Corrected Sentiment"])] *)
Definition empty_corrections : DataFrame (list cell) :=
  {| columns := ["Title"; "Corrected Sentiment"]; rows := [] |}.

(** The module-level statement that loads [feedback_df]; the first component
    lists the encodings with which the file was read, in order. *)
Definition load_feedback (fs : gmap string (list byte))
  : list encoding * result (DataFrame (list cell)) :=
  match fs !! feedback_file with
  | Some content =>
      match read_csv content utf_8_sig with
      | Raise UnicodeDecodeError =>
          ([utf_8_sig; ISO_8859_1], read_csv content ISO_8859_1)
      | outcome => ([utf_8_sig], outcome)
      end
  | None => ([], Ok empty_corrections)
  end.

(** The save action (lines 168-169): the file is overwritten in full. *)
Definition save_corrections (feedback_df : DataFrame (list cell))
    (fs : gmap string (list byte)) : gmap string (list byte) :=
  <[ feedback_file := to_csv feedback_df ]> fs.

End Corrections.

(** ** The fetcher as the specification describes it

    The entries of the topic's feeds in reading order, each with its position
    and its parsed date; an entry survives when it passes the recency filter,
    is the first entry of its title among those that pass it, and gets a
    label. *)

Record observed : Type := {
  pos : nat;
  ent : entry;
  stamp : Z
}.

Definition feed_stream (w : world) (urls : list string) : list entry :=
  urls ≫= feedparser_parse w.

Definition parse_dates (w : world) (stream : list entry) : option (list (entry * Z)) :=
  mapM (fun e => p ← strptime w (published e); Some (e, p)) stream.

Definition observe_from (k : nat) (dated : list (entry * Z)) : list observed :=
  imap (fun i ep => {| pos := k + i; ent := ep.1; stamp := ep.2 |}) dated.

Definition recent (w : world) (days_filter : Z) (x : observed) : bool :=
  passes_recency_filter (utcnow w (pos x)) (stamp x) days_filter.

Definition labelled (topic : string) (x : observed) : bool :=
  truthy (classify_governance_sentiment (title (ent x)) topic).

Definition same_title (x y : observed) : bool :=
  String.eqb (title (ent x)) (title (ent y)).

(** No entry read before [x] has the title of [x] and passes the filter. *)
Definition first_recent (w : world) (days_filter : Z) (all : list observed)
    (x : observed) : bool :=
  forallb (fun y => negb (recent w days_filter y && same_title y x))
          (take (pos x) all).

Definition survives (w : world) (topic : string) (days_filter : Z)
    (all : list observed) (x : observed) : bool :=
  recent w days_filter x && first_recent w days_filter all x && labelled topic x.

Definition row_of (topic : string) (x : observed) : news_item :=
  make_item topic (ent x) (stamp x)
            (default EmptyString (classify_governance_sentiment (title (ent x)) topic)).

Definition surviving_rows (w : world) (topic : string) (days_filter : Z)
    (all : list observed) : list news_item :=
  row_of topic <$> filter (fun x => survives w topic days_filter all x = true) all.

(** ** The first-occurrence rule, read two ways

    [first_in_stream]: no entry read before [x] has the title of [x], whether
    or not that entry passed the recency filter. [retains_first_in_stream]
    says of one call that the rows of its table come from such entries only. *)

Definition first_in_stream (all : list observed) (x : observed) : Prop :=
  forall y, y ∈ take (pos x) all -> title (ent y) <> title (ent x).

Definition retains_first_in_stream (w : world) (topic : string) (days_filter : Z) : Prop :=
  forall urls dated df,
    search_queries !! topic = Some urls ->
    parse_dates w (feed_stream w urls) = Some dated ->
    fetch_news w topic days_filter = Ok df ->
    exists kept,
      sublist kept (observe_from 0 dated) /\
      rows df = row_of topic <$> kept /\
      forall x, x ∈ kept -> first_in_stream (observe_from 0 dated) x.

(** A later call: same feeds, same parser, other clock readings. *)
Definition later_call (w : world) (clock : nat -> Z) : world :=
  {| feedparser_parse := feedparser_parse w; strptime := strptime w; utcnow := clock |}.

(** ** Concrete feeds for the examples

    The clock of the examples starts on Tue, 03 Nov 2026 12:00:00 and moves
    half a second per reading. *)

Definition noon_3_nov_2026 : Z := 1793707200000000.

Definition example_clock (k : nat) : Z := noon_3_nov_2026 + Z.of_nat k * 500000.

Definition example_strptime (s : string) : option Z :=
  if String.eqb s "Tue, 03 Nov 2026 12:00:00 GMT" then Some 1793707200000000
  else if String.eqb s "Mon, 02 Nov 2026 07:00:00 GMT" then Some 1793602800000000
  else if String.eqb s "Sun, 01 Nov 2026 09:15:00 GMT" then Some 1793524500000000
  else if String.eqb s "Tue, 20 Oct 2026 18:00:00 GMT" then Some 1792519200000000
  else if String.eqb s "Sun, 04 Oct 2026 12:00:00 GMT" then Some 1791115200000000
  else if String.eqb s "Sat, 03 Oct 2026 12:00:00 GMT" then Some 1791028800000000
  else if String.eqb s "Wed, 01 Jul 2026 08:30:00 GMT" then Some 1782894600000000
  else None.

Definition example_world (feeds : string -> list entry) : world :=
  {| feedparser_parse := feeds; strptime := example_strptime; utcnow := example_clock |}.

(** The same headline twice: first in an old entry, then in a fresh one. *)
Definition rally_old : entry :=
  {| published := "Wed, 01 Jul 2026 08:30:00 GMT";
     title := "DMK rally brings Chennai to a halt";
     link := "https://news.example/rally-july" |}.

Definition rally_new : entry :=
  {| published := "Tue, 03 Nov 2026 12:00:00 GMT";
     title := "DMK rally brings Chennai to a halt";
     link := "https://news.example/rally-november" |}.

Definition stale_first_feeds (url : string) : list entry :=
  if String.eqb url protest_feed then [rally_old; rally_new] else [].

(** Entries published exactly 30 and exactly 31 days before the first clock
    reading. *)
Definition strike_30_days : entry :=
  {| published := "Sun, 04 Oct 2026 12:00:00 GMT";
     title := "Transport strike enters second week";
     link := "https://news.example/strike-30" |}.

Definition strike_31_days : entry :=
  {| published := "Sat, 03 Oct 2026 12:00:00 GMT";
     title := "Farmers strike over water release";
     link := "https://news.example/strike-31" |}.

Definition boundary_feeds (url : string) : list entry :=
  if String.eqb url protest_feed then [strike_31_days; strike_30_days] else [].

(** Three headlines of the topic "Govt Analysis", two from the first feed and
    one from the second; a fourth entry without a date the parser accepts. *)
Definition scandal : entry :=
  {| published := "Sun, 01 Nov 2026 09:15:00 GMT";
     title := "TN govt hit by corruption scandal";
     link := "https://news.example/scandal" |}.

Definition record_growth : entry :=
  {| published := "Tue, 20 Oct 2026 18:00:00 GMT";
     title := "TN achieves record growth";
     link := "https://news.example/growth" |}.

Definition water_success : entry :=
  {| published := "Mon, 02 Nov 2026 07:00:00 GMT";
     title := "Water project success in Madurai";
     link := "https://news.example/water" |}.

Definition undated : entry :=
  {| published := "2026-11-03T12:00:00Z";
     title := "Development plan unveiled";
     link := "https://news.example/plan" |}.

Definition govt_feeds (url : string) : list entry :=
  if String.eqb url misgovernance_feed then [scandal; record_growth]
  else if String.eqb url good_governance_feed then [water_success]
  else [].

Definition broken_feeds (url : string) : list entry :=
  if String.eqb url misgovernance_feed then [scandal; record_growth]
  else if String.eqb url good_governance_feed then [undated; water_success]
  else [].

(** A fresh headline without a keyword of "Govt Analysis" and a headline
    with one that is four months old. *)
Definition monsoon : entry :=
  {| published := "Tue, 03 Nov 2026 12:00:00 GMT";
     title := "Monsoon reaches the delta districts";
     link := "https://news.example/monsoon" |}.

Definition old_scandal : entry :=
  {| published := "Wed, 01 Jul 2026 08:30:00 GMT";
     title := "Corruption scandal rocks the secretariat";
     link := "https://news.example/old-scandal" |}.

Definition quiet_feeds (url : string) : list entry :=
  if String.eqb url misgovernance_feed then [monsoon]
  else if String.eqb url good_governance_feed then [old_scandal]
  else [].

(** A reader that cannot decode anything as utf-8-sig and cannot parse what
    it decodes as ISO-8859-1. *)
Definition failing_read_csv (content : list byte) (enc : encoding)
  : result (DataFrame (list string)) :=
  match enc with
  | utf_8_sig => Raise UnicodeDecodeError
  | ISO_8859_1 => Raise (OtherError "ParserError")
  end.

(** ** Invariants of the loop *)

(** What the loop knows after reading the entries [pre]: it has read the
    clock once per entry, and [all_news] holds the titles of the entries
    that passed the recency filter and got a label. *)
Definition loop_invariant (w : world) (topic : string) (days_filter : Z)
    (pre : list (entry * Z)) (st : loop_state) : Prop :=
  clock_reads st = length pre /\
  forall t, t ∈ all_news st <->
    exists y, y ∈ observe_from 0 pre /\ recent w days_filter y = true /\
              labelled topic y = true /\ title (ent y) = t.

(** Rows carry the topic of the call and the label the classifier gives
    their title; their titles are pairwise distinct and all in [all_news]. *)
Definition rows_invariant (topic : string) (st : loop_state) : Prop :=
  Forall (fun r => Category r = topic /\
                   classify_governance_sentiment (Title r) topic = Some (Sentiment r))
         (news_data st)
  /\ NoDup (Title <$> news_data st)
  /\ (forall r, r ∈ news_data st -> Title r ∈ all_news st).

(** ** What the specification calls a case-insensitive substring

    [kw] occurs in [title] when some contiguous part of [title] spells [kw]
    up to the case of its letters. *)

Definition same_up_to_case (a b : string) : Prop := Str.lower a = Str.lower b.

Definition occurs_ci (kw title : string) : Prop :=
  exists pre mid post, title = pre +:+ mid +:+ post /\ same_up_to_case mid kw.

Definition some_occurs_ci (kws : list string) (title : string) : Prop :=
  exists kw, kw ∈ kws /\ occurs_ci kw title.

(** [stem] is spelled in [title] up to the case of its letters and followed
    by U+0130: the lowered title then has [stem], the letter i and U+0307. *)
Definition occurs_before_dotted_I (stem title : string) : Prop :=
  exists pre mid post,
    title = pre +:+ mid +:+ Str.capital_dotted_I +:+ post /\ same_up_to_case mid stem.

(** A keyword of the program: not empty, ASCII, in lower case; a plain
    keyword does not end with the letter i. *)
Definition keyword (kw : string) : Prop :=
  kw <> EmptyString /\ Str.all_ascii kw = true /\ Str.lower kw = kw.

Definition plain_keyword (kw : string) : Prop :=
  keyword kw /\ Str.ends_with_i kw = false.

(** Neither U+212A nor U+0130 starts at the head of [String c s]. *)
Definition plain_head (c : ascii) (s : string) : Prop :=
  (forall rest, String c s <> String "226" (String "132" (String "170" rest)))
  /\ (forall rest, String c s <> String "196" (String "176" rest)).

(** [b] does not begin with the second or third byte of U+212A or U+0130. *)
Definition starts_clean (b : string) : Prop :=
  match b with
  | EmptyString => True
  | String x _ => x <> "132"%char /\ x <> "170"%char /\ x <> "176"%char
  end.

(** ** The recency selector (lines 88-94) and the two tabs (lines 96-127) *)

(** [time_options], in the order in which the dictionary lists its keys. *)
Definition time_options : list (string * Z) :=
  [ ("Today", 1); ("Last 10 Days", 10); ("Last 30 Days", 30);
    ("Last 60 Days", 60); ("Last 90 Days", 90) ].

(** [list(time_options.keys())]: the names the select box of a tab offers. *)
Definition time_option_names : list string := time_options.*1.

(** [time_options[selected_time]] *)
Definition time_option (selected_time : string) : result Z :=
  match (list_to_map time_options : gmap string Z) !! selected_time with
  | Some days => Ok days
  | None => Raise (KeyError selected_time)
  end.

(** [df_selected] of a tab from the name chosen in its select box
    (lines 100-103 and 124-127). *)
Definition tab1_df_selected (w : world) (selected_time : string)
  : result (DataFrame news_item) :=
  days ← time_option selected_time; df_selected_govt w days.

Definition tab2_df_selected (w : world) (selected_time : string)
  : result (DataFrame news_item) :=
  days ← time_option selected_time; df_selected_protests w days.

(** [df_selected.empty] (lines 107 and 131): the table has no row. *)
Definition DataFrame_empty {R : Type} (df : DataFrame R) : bool :=
  match rows df with [] => true | _ :: _ => false end.

(** The entry of [label] in [df_selected["Sentiment"].value_counts()]
    (lines 105 and 129): the number of rows that carry it. *)
Definition sentiment_count (label : string) (df : DataFrame news_item) : nat :=
  length (filter (fun r => Sentiment r = label) (rows df)).

(** [all_news] holds exactly the titles of the rows collected so far. *)
Definition titles_invariant (st : loop_state) : Prop :=
  forall t, t ∈ all_news st <-> t ∈ Title <$> news_data st.

(** The entry at position [i] of the stream passes the recency filter of the
    call and its title gets a label. *)
Definition eligible_at (w : world) (topic : string) (days_filter : Z)
    (stream : list entry) (i : nat) (e : entry) : Prop :=
  stream !! i = Some e /\
  exists p, strptime w (published e) = Some p /\
            passes_recency_filter (utcnow w i) p days_filter = true /\
            classify_governance_sentiment (title e) topic <> None.

(** A feed reader that finds no entry anywhere. *)
Definition no_entries (url : string) : list entry := [].

(* ================================================================== *)
(** * Properties *)
(* ================================================================== *)

(** ** Strings *)

Lemma append_assoc (a b c : string) : (a +:+ b) +:+ c = a +:+ b +:+ c.
Proof.
  induction a as [|x a IH]; [reflexivity |].
  change (String x ((a +:+ b) +:+ c) = String x (a +:+ b +:+ c)). now rewrite IH.
Qed.

Lemma append_cons (x : ascii) (a b : string) : String x a +:+ b = String x (a +:+ b).
Proof. reflexivity. Qed.

Lemma append_nil_r (a : string) : a +:+ EmptyString = a.
Proof.
  induction a as [|x a IH]; [reflexivity |]. rewrite append_cons. now rewrite IH.
Qed.

Lemma lower_kelvin (rest : string) :
  Str.lower (String "226" (String "132" (String "170" rest))) = String "k" (Str.lower rest).
Proof. reflexivity. Qed.

Lemma lower_dotted_I (rest : string) :
  Str.lower (String "196" (String "176" rest))
  = String "i" (String "204" (String "135" (Str.lower rest))).
Proof. reflexivity. Qed.

Lemma lower_plain (c : ascii) (s : string) :
  plain_head c s -> Str.lower (String c s) = String (Str.lower_char c) (Str.lower s).
Proof.
  intros [Hk Hd]. destruct s as [|c1 [|c2 rest]]; cbn [Str.lower]; [reflexivity | |].
  - destruct (Ascii.eqb_spec c "196") as [->|]; [| reflexivity].
    destruct (Ascii.eqb_spec c1 "176") as [->|]; [| reflexivity].
    now destruct (Hd EmptyString).
  - destruct (Ascii.eqb_spec c "196") as [->|].
    + destruct (Ascii.eqb_spec c1 "176") as [->|]; [now destruct (Hd (String c2 rest)) |].
      reflexivity.
    + cbn [andb]. destruct (Ascii.eqb_spec c "226") as [->|]; [| reflexivity].
      destruct (Ascii.eqb_spec c1 "132") as [->|]; [| reflexivity].
      destruct (Ascii.eqb_spec c2 "170") as [->|]; [| reflexivity].
      now destruct (Hk rest).
Qed.

Lemma plain_head_other (c : ascii) (s : string) :
  c <> "226"%char -> c <> "196"%char -> plain_head c s.
Proof. intros Hk Hd. split; intros rest [= ? ?]; contradiction. Qed.

Lemma is_ascii_plain (c : ascii) (s : string) : Str.is_ascii c = true -> plain_head c s.
Proof. intros H. apply plain_head_other; intros ->; discriminate. Qed.

Lemma head_cases (c : ascii) (s : string) :
  (exists rest, s = String "132" (String "170" rest) /\ c = "226"%char)
  \/ (exists rest, s = String "176" rest /\ c = "196"%char)
  \/ plain_head c s.
Proof.
  destruct (Ascii.eqb_spec c "196") as [->|Hd].
  - destruct s as [|c1 rest].
    + right. right. split; intros rest [=].
    + destruct (Ascii.eqb_spec c1 "176") as [->|H1]; [right; left; eauto |].
      right. right. split; intros r [=]. contradiction.
  - destruct (Ascii.eqb_spec c "226") as [->|Hk];
      [| right; right; now apply plain_head_other].
    destruct s as [|c1 [|c2 rest]]; try (right; right; split; intros r [=]; fail).
    destruct (Ascii.eqb_spec c1 "132") as [->|H1];
      [| right; right; split; intros r [=]; contradiction].
    destruct (Ascii.eqb_spec c2 "170") as [->|H2];
      [| right; right; split; intros r [=]; contradiction].
    left. eauto.
Qed.

(** Induction along the way [Str.lower] reads a text. *)
Lemma lower_ind (P : string -> Prop) :
  P EmptyString ->
  (forall rest, P rest -> P (String "226" (String "132" (String "170" rest)))) ->
  (forall rest, P rest -> P (String "196" (String "176" rest))) ->
  (forall c s, plain_head c s -> P s -> P (String c s)) ->
  forall s, P s.
Proof.
  intros Hnil Hk Hd Hp s.
  assert (H : forall n s, (String.length s <= n)%nat -> P s).
  { clear s. induction n as [|n IH]; intros s Hlen.
    - destruct s; [exact Hnil | cbn in Hlen; lia].
    - destruct s as [|c s]; [exact Hnil |]. cbn in Hlen.
      destruct (head_cases c s) as [(rest & -> & ->) | [(rest & -> & ->) | Hplain]].
      + apply Hk, IH. cbn in Hlen. lia.
      + apply Hd, IH. cbn in Hlen. lia.
      + apply Hp; [exact Hplain |]. apply IH. lia. }
  exact (H (String.length s) s (Nat.le_refl _)).
Qed.

Lemma lower_char_ascii (c : ascii) : Str.is_ascii (Str.lower_char c) = Str.is_ascii c.
Proof. destruct c as [[] [] [] [] [] [] [] []]; reflexivity. Qed.

Lemma lower_char_idempotent (c : ascii) :
  Str.lower_char (Str.lower_char c) = Str.lower_char c.
Proof. destruct c as [[] [] [] [] [] [] [] []]; reflexivity. Qed.

Lemma lower_char_high (c : ascii) : Str.is_ascii c = false -> Str.lower_char c = c.
Proof. destruct c as [[] [] [] [] [] [] [] []]; intros H; try reflexivity; discriminate. Qed.

(** A text whose lowering is ASCII ends where a character ends. *)
Lemma lower_app_ascii (a b : string) :
  Str.all_ascii (Str.lower a) = true ->
  Str.lower (a +:+ b) = Str.lower a +:+ Str.lower b.
Proof.
  induction a as [| rest IH | rest IH | c s Hplain IH] using lower_ind.
  - reflexivity.
  - rewrite !append_cons, !lower_kelvin, append_cons. cbn [Str.all_ascii].
    intros H. apply andb_prop in H as [_ H]. now rewrite (IH H).
  - rewrite lower_dotted_I. cbn [Str.all_ascii]. intros H.
    apply andb_prop in H as [_ H]. apply andb_prop in H as [H _]. discriminate.
  - rewrite (lower_plain c s Hplain). cbn [Str.all_ascii]. intros H.
    apply andb_prop in H as [Hc H]. rewrite lower_char_ascii in Hc.
    rewrite append_cons, (lower_plain c (s +:+ b) (is_ascii_plain c _ Hc)), append_cons.
    now rewrite (IH H).
Qed.

Lemma plain_head_app (c : ascii) (s b : string) :
  plain_head c s -> starts_clean b -> plain_head c (s +:+ b).
Proof.
  intros [Hk Hd] Hb. split; intros rest H.
  - destruct s as [|c1 [|c2 s]].
    + destruct b as [|x b]; [discriminate |]. cbn in Hb. injection H as -> ->. tauto.
    + destruct b as [|x b]; [discriminate |]. cbn in Hb.
      rewrite !append_cons in H. injection H as -> -> ->. tauto.
    + rewrite !append_cons in H. injection H as -> -> -> _. now destruct (Hk s).
  - destruct s as [|c1 s].
    + destruct b as [|x b]; [discriminate |]. cbn in Hb. injection H as -> ->. tauto.
    + rewrite !append_cons in H. injection H as -> -> _. now destruct (Hd s).
Qed.

Lemma lower_app_clean (a b : string) :
  starts_clean b -> Str.lower (a +:+ b) = Str.lower a +:+ Str.lower b.
Proof.
  intros Hb. induction a as [| rest IH | rest IH | c s Hplain IH] using lower_ind.
  - reflexivity.
  - now rewrite !append_cons, !lower_kelvin, append_cons, IH.
  - now rewrite !append_cons, !lower_dotted_I, !append_cons, IH.
  - rewrite append_cons, (lower_plain c s Hplain),
      (lower_plain c _ (plain_head_app c s b Hplain Hb)), append_cons. now rewrite IH.
Qed.

Lemma starts_clean_ascii_lower (a b : string) :
  a <> EmptyString -> Str.all_ascii (Str.lower a) = true -> starts_clean (a +:+ b).
Proof.
  intros Hne.
  induction a as [| rest _ | rest _ | c s Hplain _] using lower_ind.
  - contradiction.
  - intros _. cbn. repeat split; discriminate.
  - rewrite lower_dotted_I. cbn [Str.all_ascii]. intros H.
    apply andb_prop in H as [_ H]. apply andb_prop in H as [H _]. discriminate.
  - rewrite (lower_plain c s Hplain). cbn [Str.all_ascii]. intros H.
    apply andb_prop in H as [Hc _]. rewrite lower_char_ascii in Hc.
    rewrite append_cons. cbn. repeat split; intros ->; discriminate.
Qed.

Lemma prefix_spec (p s : string) :
  String.prefix p s = true <-> exists r, s = p +:+ r.
Proof.
  revert p; induction s as [|b s IH]; intros [|a p]; simpl.
  - split; [exists EmptyString; reflexivity | reflexivity].
  - split; [discriminate | intros [r Hr]; discriminate].
  - split; [eexists; reflexivity | reflexivity].
  - destruct (ascii_dec a b) as [->|Hab].
    + rewrite IH. split; intros [r Hr]; exists r; [now rewrite Hr | now injection Hr].
    + split; [discriminate | intros [r Hr]; injection Hr; intros _ E; now destruct Hab].
Qed.

Lemma contains_spec (w t : string) :
  Str.contains w t = true <-> exists pre post, t = pre +:+ w +:+ post.
Proof.
  induction t as [|c t IH]; cbn [Str.contains].
  - rewrite orb_false_r, prefix_spec. split.
    + intros [r Hr]. now exists EmptyString, r.
    + intros ([|? pre] & post & H); [now exists post | discriminate].
  - rewrite orb_true_iff, prefix_spec, IH. split.
    + intros [[r Hr] | (pre & post & H)].
      * now exists EmptyString, r.
      * exists (String c pre), post. simpl. now rewrite H.
    + intros ([|c' pre] & post & H); cbn [String.append] in H.
      * left. now exists post.
      * right. injection H as _ H. now exists pre, post.
Qed.

Lemma lower_around (pre mid post : string) :
  mid <> EmptyString -> Str.all_ascii (Str.lower mid) = true ->
  Str.lower (pre +:+ mid +:+ post) = Str.lower pre +:+ Str.lower mid +:+ Str.lower post.
Proof.
  intros Hne Hascii.
  rewrite (lower_app_clean pre _ (starts_clean_ascii_lower mid post Hne Hascii)).
  now rewrite (lower_app_ascii mid post Hascii).
Qed.

Lemma lower_nil_inv (s : string) : Str.lower s = EmptyString -> s = EmptyString.
Proof.
  destruct s as [|c s]; [reflexivity |].
  destruct (head_cases c s) as [(rest & -> & ->) | [(rest & -> & ->) | Hplain]].
  - discriminate.
  - discriminate.
  - rewrite (lower_plain c s Hplain). discriminate.
Qed.

(** What is spelled up to case in a text is found in the lowered text. *)
Lemma occurs_ci_contains (kw title : string) :
  keyword kw -> occurs_ci kw title -> Str.contains kw (Str.lower title) = true.
Proof.
  intros (Hne & Hascii & Hlow) (pre & mid & post & -> & Hmid).
  unfold same_up_to_case in Hmid. rewrite Hlow in Hmid.
  apply contains_spec. exists (Str.lower pre), (Str.lower post).
  rewrite lower_around, Hmid; [reflexivity | | now rewrite Hmid].
  intros ->. cbn in Hmid. now subst kw.
Qed.

Lemma occurs_before_dotted_I_contains (stem title : string) :
  keyword stem -> occurs_before_dotted_I stem title ->
  Str.contains (stem +:+ "i") (Str.lower title) = true.
Proof.
  intros (Hne & Hascii & Hlow) (pre & mid & post & -> & Hmid).
  unfold same_up_to_case in Hmid. rewrite Hlow in Hmid.
  apply contains_spec.
  exists (Str.lower pre), (String "204" (String "135" (Str.lower post))).
  rewrite lower_around, Hmid; [| | now rewrite Hmid].
  - change (Str.lower (Str.capital_dotted_I +:+ post))
      with (String "i" (String "204" (String "135" (Str.lower post)))).
    now rewrite !append_assoc.
  - intros ->. cbn in Hmid. now subst stem.
Qed.

(** The other way round: where a keyword starts the lowered text. *)
Lemma lower_match_prefix (kw : string) :
  Str.all_ascii kw = true ->
  forall t b, Str.lower t = kw +:+ b ->
    (exists mid post, t = mid +:+ post /\ Str.lower mid = kw)
    \/ (exists stem mid post,
          kw = stem +:+ "i" /\ t = mid +:+ Str.capital_dotted_I +:+ post /\
          Str.lower mid = stem).
Proof.
  induction kw as [|c kw IH]; intros Hascii t b H.
  - left. now exists EmptyString, t.
  - cbn [Str.all_ascii] in Hascii. apply andb_prop in Hascii as [Hc Hascii].
    destruct t as [|h t]; [discriminate |].
    destruct (head_cases h t) as [(rest & -> & ->) | [(rest & -> & ->) | Hplain]].
    + rewrite lower_kelvin, append_cons in H. injection H as <- H.
      destruct (IH Hascii rest b H)
        as [(mid & post & -> & Hmid) | (stem & mid & post & -> & -> & Hmid)].
      * left. exists (String "226" (String "132" (String "170" mid))), post.
        split; [reflexivity |]. now rewrite lower_kelvin, Hmid.
      * right. exists (String "k" stem), (String "226" (String "132" (String "170" mid))), post.
        split; [reflexivity |]. split; [reflexivity |]. now rewrite lower_kelvin, Hmid.
    + rewrite lower_dotted_I, append_cons in H. injection H as <- H.
      destruct kw as [|c' kw].
      * right. exists EmptyString, EmptyString, rest. now split.
      * rewrite append_cons in H. injection H as <- _.
        cbn [Str.all_ascii] in Hascii. apply andb_prop in Hascii as [Hc' _]. discriminate.
    + rewrite (lower_plain h t Hplain), append_cons in H. injection H as <- H.
      rewrite lower_char_ascii in Hc.
      destruct (IH Hascii t b H)
        as [(mid & post & -> & Hmid) | (stem & mid & post & -> & -> & Hmid)].
      * left. exists (String h mid), post. split; [reflexivity |].
        now rewrite (lower_plain h mid (is_ascii_plain h mid Hc)), Hmid.
      * right. exists (String (Str.lower_char h) stem), (String h mid), post.
        split; [reflexivity |]. split; [reflexivity |].
        now rewrite (lower_plain h mid (is_ascii_plain h mid Hc)), Hmid.
Qed.

Lemma lower_match (kw : string) :
  kw <> EmptyString -> Str.all_ascii kw = true ->
  forall t a b, Str.lower t = a +:+ kw +:+ b ->
    (exists pre mid post, t = pre +:+ mid +:+ post /\ Str.lower mid = kw)
    \/ (exists stem pre mid post,
          kw = stem +:+ "i" /\ t = pre +:+ mid +:+ Str.capital_dotted_I +:+ post /\
          Str.lower mid = stem).
Proof.
  intros Hne Hascii.
  assert (Hstart : forall t b, Str.lower t = kw +:+ b ->
    (exists pre mid post, t = pre +:+ mid +:+ post /\ Str.lower mid = kw)
    \/ (exists stem pre mid post,
          kw = stem +:+ "i" /\ t = pre +:+ mid +:+ Str.capital_dotted_I +:+ post /\
          Str.lower mid = stem)).
  { intros t b H. destruct (lower_match_prefix kw Hascii t b H)
      as [(mid & post & -> & Hmid) | (stem & mid & post & -> & -> & Hmid)].
    - left. now exists EmptyString, mid, post.
    - right. now exists stem, EmptyString, mid, post. }
  assert (Hkw : exists c kw', kw = String c kw' /\ Str.is_ascii c = true).
  { destruct kw as [|c kw']; [contradiction |]. cbn [Str.all_ascii] in Hascii.
    apply andb_prop in Hascii as [Hc _]. eauto. }
  destruct Hkw as (c0 & kw0 & Hkw & Hc0).
  assert (Hpush : forall (front t : string),
    (exists pre mid post, t = pre +:+ mid +:+ post /\ Str.lower mid = kw)
    \/ (exists stem pre mid post,
          kw = stem +:+ "i" /\ t = pre +:+ mid +:+ Str.capital_dotted_I +:+ post /\
          Str.lower mid = stem) ->
    (exists pre mid post, front +:+ t = pre +:+ mid +:+ post /\ Str.lower mid = kw)
    \/ (exists stem pre mid post,
          kw = stem +:+ "i" /\
          front +:+ t = pre +:+ mid +:+ Str.capital_dotted_I +:+ post /\
          Str.lower mid = stem)).
  { intros front t [(pre & mid & post & -> & Hmid) | (stem & pre & mid & post & Hs & -> & Hmid)].
    - left. exists (front +:+ pre), mid, post. now rewrite append_assoc.
    - right. exists stem, (front +:+ pre), mid, post. now rewrite append_assoc. }
  intros t. induction t as [| rest IH | rest IH | h t Hplain IH] using lower_ind;
    intros a b H.
  - destruct a; [now apply (Hstart EmptyString b) | discriminate].
  - destruct a as [|x a]; [now apply (Hstart _ b) |].
    rewrite lower_kelvin, append_cons in H. injection H as _ H.
    apply (Hpush (String "226" (String "132" (String "170" EmptyString))) rest).
    exact (IH a b H).
  - destruct a as [|x a]; [now apply (Hstart _ b) |].
    rewrite lower_dotted_I, append_cons in H. injection H as _ H.
    destruct a as [|y a].
    { rewrite Hkw in H. cbn in H. injection H as <- _. discriminate. }
    rewrite append_cons in H. injection H as _ H.
    destruct a as [|z a].
    { rewrite Hkw in H. cbn in H. injection H as <- _. discriminate. }
    rewrite append_cons in H. injection H as _ H.
    apply (Hpush (String "196" (String "176" EmptyString)) rest). exact (IH a b H).
  - destruct a as [|x a]; [now apply (Hstart _ b) |].
    rewrite (lower_plain h t Hplain), append_cons in H. injection H as _ H.
    apply (Hpush (String h EmptyString) t). exact (IH a b H).
Qed.

Lemma ends_with_i_app (stem : string) : Str.ends_with_i (stem +:+ "i") = true.
Proof.
  induction stem as [|c stem IH]; [reflexivity |].
  rewrite append_cons. cbn [Str.ends_with_i].
  destruct (stem +:+ "i") eqn:E; [| exact IH].
  destruct stem; discriminate.
Qed.

Lemma contains_lower_spec (kw title : string) :
  keyword kw -> Str.ends_with_i kw = false ->
  Str.contains kw (Str.lower title) = true <-> occurs_ci kw title.
Proof.
  intros Hkw Hend. split; [| now apply occurs_ci_contains].
  destruct Hkw as (Hne & Hascii & Hlow). rewrite contains_spec. intros (a & b & H).
  destruct (lower_match kw Hne Hascii title a b H)
    as [(pre & mid & post & -> & Hmid) | (stem & pre & mid & post & -> & _)].
  - exists pre, mid, post. split; [reflexivity |]. unfold same_up_to_case. congruence.
  - now rewrite ends_with_i_app in Hend.
Qed.

Lemma append_inj_last (a b : string) (c : ascii) :
  a +:+ String c EmptyString = b +:+ String c EmptyString -> a = b.
Proof.
  revert b. induction a as [|x a IH]; intros [|y b] H.
  - reflexivity.
  - rewrite append_cons in H. cbn in H. injection H as _ H. destruct b; discriminate.
  - rewrite append_cons in H. cbn in H. injection H as _ H. destruct a; discriminate.
  - rewrite !append_cons in H. injection H as -> H. now rewrite (IH b H).
Qed.

Lemma contains_lower_dotted (stem title : string) :
  keyword stem -> Str.lower (stem +:+ "i") = stem +:+ "i" ->
  Str.contains (stem +:+ "i") (Str.lower title) = true <->
  occurs_ci (stem +:+ "i") title \/ occurs_before_dotted_I stem title.
Proof.
  intros Hstem Hlow.
  assert (Hkw : keyword (stem +:+ "i")).
  { destruct Hstem as (Hne & Hascii & _). split; [destruct stem; discriminate |].
    split; [| exact Hlow]. clear -Hascii. induction stem as [|c s IH]; [reflexivity |].
    rewrite append_cons. cbn [Str.all_ascii] in *. apply andb_prop in Hascii as [-> H].
    now rewrite (IH H). }
  split.
  - destruct Hkw as (Hne & Hascii & _). rewrite contains_spec. intros (a & b & H).
    destruct (lower_match _ Hne Hascii title a b H)
      as [(pre & mid & post & -> & Hmid) | (stem' & pre & mid & post & Heq & -> & Hmid)].
    + left. exists pre, mid, post. split; [reflexivity |]. unfold same_up_to_case. congruence.
    + right. apply append_inj_last in Heq. subst stem'.
      exists pre, mid, post. split; [reflexivity |]. unfold same_up_to_case.
      destruct Hstem as (_ & _ & Hs). congruence.
  - intros [H | H]; [now apply occurs_ci_contains |].
    now apply occurs_before_dotted_I_contains.
Qed.

(** Lowering twice is lowering once. *)
Lemma lower_head_high (t r : string) (x : ascii) :
  Str.lower t = String x r -> Str.is_ascii x = false ->
  exists t', t = String x t' /\ r = Str.lower t'.
Proof.
  intros H Hx. destruct t as [|h t]; [discriminate |].
  destruct (head_cases h t) as [(rest & -> & ->) | [(rest & -> & ->) | Hplain]].
  - rewrite lower_kelvin in H. injection H as <- _. discriminate.
  - rewrite lower_dotted_I in H. injection H as <- _. discriminate.
  - rewrite (lower_plain h t Hplain) in H. injection H as Hh Hr.
    assert (Hhigh : Str.is_ascii h = false) by now rewrite <- lower_char_ascii, Hh.
    rewrite (lower_char_high h Hhigh) in Hh. subst h. now exists t.
Qed.

Lemma plain_head_lower (c : ascii) (s : string) :
  plain_head c s -> plain_head (Str.lower_char c) (Str.lower s).
Proof.
  intros Hplain. destruct (Str.is_ascii c) eqn:Hc.
  - apply is_ascii_plain. now rewrite lower_char_ascii.
  - rewrite (lower_char_high c Hc). destruct Hplain as [Hk Hd]. split; intros rest [= -> H].
    + destruct (lower_head_high s _ _ H eq_refl) as (s1 & -> & H1).
      symmetry in H1. destruct (lower_head_high s1 _ _ H1 eq_refl) as (s2 & -> & _).
      now destruct (Hk s2).
    + destruct (lower_head_high s _ _ H eq_refl) as (s1 & -> & _).
      now destruct (Hd s1).
Qed.

Lemma lower_idempotent (s : string) : Str.lower (Str.lower s) = Str.lower s.
Proof.
  induction s as [| rest IH | rest IH | c s Hplain IH] using lower_ind.
  - reflexivity.
  - rewrite lower_kelvin. rewrite (lower_plain "k" _ (is_ascii_plain "k" _ eq_refl)).
    now rewrite IH.
  - rewrite lower_dotted_I.
    rewrite (lower_plain "i" _ (is_ascii_plain "i" _ eq_refl)).
    rewrite (lower_plain "204" _ (plain_head_other "204" _ ltac:(discriminate) ltac:(discriminate))).
    rewrite (lower_plain "135" _ (plain_head_other "135" _ ltac:(discriminate) ltac:(discriminate))).
    now rewrite IH.
  - rewrite (lower_plain c s Hplain).
    rewrite (lower_plain _ _ (plain_head_lower c s Hplain)).
    now rewrite lower_char_idempotent, IH.
Qed.

(** ** Keyword lists *)

Lemma any_in_lower_spec (kws : list string) (title : string) :
  Forall plain_keyword kws ->
  Str.any_in kws (Str.lower title) = true <-> some_occurs_ci kws title.
Proof.
  intros Hkws. unfold Str.any_in, some_occurs_ci. rewrite existsb_exists.
  rewrite Forall_forall in Hkws. split.
  - intros (kw & Hin & H). exists kw. split; [now apply list_elem_of_In |].
    destruct (Hkws kw (proj2 (list_elem_of_In _ _) Hin)) as [Hkw Hend].
    now apply (contains_lower_spec kw title Hkw Hend).
  - intros (kw & Hin & H). exists kw. split; [now apply list_elem_of_In |].
    destruct (Hkws kw Hin) as [Hkw Hend].
    now apply (contains_lower_spec kw title Hkw Hend).
Qed.

Lemma any_in_lower_false (kws : list string) (title : string) :
  Forall plain_keyword kws ->
  ~ some_occurs_ci kws title -> Str.any_in kws (Str.lower title) = false.
Proof.
  intros Hkws Hno. destruct (Str.any_in kws (Str.lower title)) eqn:E; [| reflexivity].
  apply any_in_lower_spec in E; [contradiction | exact Hkws].
Qed.

Lemma plain_keyword_intro (kw : string) :
  Str.nonempty kw = true -> Str.all_ascii kw = true -> Str.lower kw = kw ->
  Str.ends_with_i kw = false -> plain_keyword kw.
Proof.
  intros Hne Hascii Hlow Hend. split; [| exact Hend].
  split; [intros ->; discriminate | now split].
Qed.

Lemma misgovernance_words_lower : Forall plain_keyword misgovernance_words.
Proof. repeat constructor; now apply plain_keyword_intro. Qed.

Lemma good_governance_words_lower : Forall plain_keyword good_governance_words.
Proof. repeat constructor; now apply plain_keyword_intro. Qed.

Lemma state_words_lower : Forall plain_keyword state_words.
Proof. repeat constructor; now apply plain_keyword_intro. Qed.

(** The list of the central government ends a keyword with i: "modi" is also
    found where the title has "mod", in any case, before U+0130. *)
Lemma central_words_spec (title : string) :
  Str.any_in central_words (Str.lower title) = true <->
  some_occurs_ci central_words title \/ occurs_before_dotted_I "mod" title.
Proof.
  assert (Hmod : keyword "mod") by (split; [discriminate | now split]).
  assert (Hmodi : Str.contains "modi" (Str.lower title) = true <->
                  occurs_ci "modi" title \/ occurs_before_dotted_I "mod" title)
    by exact (contains_lower_dotted "mod" title Hmod eq_refl).
  assert (Hbjp : Str.contains "bjp government" (Str.lower title) = true <->
                 occurs_ci "bjp government" title).
  { apply contains_lower_spec; [| reflexivity]. split; [discriminate | now split]. }
  assert (Hcen : Str.contains "central government" (Str.lower title) = true <->
                 occurs_ci "central government" title).
  { apply contains_lower_spec; [| reflexivity]. split; [discriminate | now split]. }
  unfold Str.any_in, central_words. cbn [existsb].
  rewrite !orb_true_iff, Hmodi, Hbjp, Hcen. unfold some_occurs_ci. split.
  - intros [[H | H] | [H | [H | H]]]; try discriminate.
    + left. exists "modi". split; [constructor | exact H].
    + now right.
    + left. exists "bjp government". split; [do 2 constructor | exact H].
    + left. exists "central government". split; [do 3 constructor | exact H].
  - intros [(kw & Hin & H) | H]; [| left; now right].
    apply elem_of_cons in Hin as [-> | Hin]; [left; now left |].
    apply elem_of_cons in Hin as [-> | Hin]; [right; now left |].
    apply list_elem_of_singleton in Hin as ->. right. right. now left.
Qed.

(** ** The classifier on concrete headlines *)

Example classify_scenario_1 :
  classify_governance_sentiment "TN govt hit by corruption scandal" Govt_Analysis
  = Some Misgovernance.
Proof. reflexivity. Qed.

Example classify_scenario_2 :
  classify_governance_sentiment "TN achieves record growth" Govt_Analysis
  = Some Good_Governance.
Proof. reflexivity. Qed.

Example classify_scenario_3 :
  classify_governance_sentiment "Stalin slams MODI over rally" Protests_Against_Government
  = Some Anti_State.
Proof. reflexivity. Qed.

(** ** The classifier, topic by topic *)

Lemma classify_govt_unfold (title : string) :
  classify_governance_sentiment title Govt_Analysis =
    if Str.any_in misgovernance_words (Str.lower title) then Some Misgovernance
    else if Str.any_in good_governance_words (Str.lower title) then Some Good_Governance
    else None.
Proof. reflexivity. Qed.

Lemma classify_protests_unfold (title : string) :
  classify_governance_sentiment title Protests_Against_Government =
    if Str.any_in state_words (Str.lower title) then Some Anti_State
    else if Str.any_in central_words (Str.lower title) then Some Anti_Central
    else Some General_Protest.
Proof.
  unfold classify_governance_sentiment, Str.any_in, state_words, central_words.
  cbn [existsb]. rewrite !orb_false_r, !orb_assoc. reflexivity.
Qed.

Lemma occurs_ci_some (kw : string) (kws : list string) (title : string) :
  kw ∈ kws -> occurs_ci kw title -> some_occurs_ci kws title.
Proof. intros Hin H. now exists kw. Qed.

(** C1: under the topic "Govt Analysis" a headline is labelled Misgovernance
    when one of failure, misgovernance, corruption, controversy occurs in it
    up to letter case; otherwise Good Governance when one of success,
    achievement, development, growth occurs; otherwise it gets no label.
    A headline with keywords of both lists is Misgovernance, and so is every
    headline containing any spelling of "corruption". *)
Theorem classify_govt_analysis (title : string) :
  (some_occurs_ci misgovernance_words title ->
     classify_governance_sentiment title Govt_Analysis = Some Misgovernance)
  /\ (~ some_occurs_ci misgovernance_words title ->
      some_occurs_ci good_governance_words title ->
      classify_governance_sentiment title Govt_Analysis = Some Good_Governance)
  /\ (~ some_occurs_ci misgovernance_words title ->
      ~ some_occurs_ci good_governance_words title ->
      classify_governance_sentiment title Govt_Analysis = None)
  /\ (some_occurs_ci misgovernance_words title ->
      some_occurs_ci good_governance_words title ->
      classify_governance_sentiment title Govt_Analysis = Some Misgovernance)
  /\ (forall pre spelling post,
        title = pre +:+ spelling +:+ post ->
        same_up_to_case spelling "corruption" ->
        classify_governance_sentiment title Govt_Analysis = Some Misgovernance).
Proof.
  assert (Hbad : some_occurs_ci misgovernance_words title ->
                 classify_governance_sentiment title Govt_Analysis = Some Misgovernance).
  { intros H. rewrite classify_govt_unfold.
    apply (any_in_lower_spec _ _ misgovernance_words_lower) in H. now rewrite H. }
  repeat split.
  - exact Hbad.
  - intros Hno Hgood. rewrite classify_govt_unfold.
    rewrite (any_in_lower_false _ _ misgovernance_words_lower Hno).
    apply (any_in_lower_spec _ _ good_governance_words_lower) in Hgood.
    now rewrite Hgood.
  - intros Hno Hno'. rewrite classify_govt_unfold.
    rewrite (any_in_lower_false _ _ misgovernance_words_lower Hno).
    now rewrite (any_in_lower_false _ _ good_governance_words_lower Hno').
  - intros H _. now apply Hbad.
  - intros pre spelling post Ht Hs. apply Hbad.
    apply (occurs_ci_some "corruption"); [apply list_elem_of_In; simpl; tauto |].
    now exists pre, spelling, post.
Qed.

Lemma classify_govt_analysis_witness :
  some_occurs_ci misgovernance_words "Record growth despite CorrupTION row"
  /\ some_occurs_ci good_governance_words "Record growth despite CorrupTION row"
  /\ classify_governance_sentiment "Record growth despite CorrupTION row" Govt_Analysis
     = Some Misgovernance.
Proof.
  assert (Hbad : some_occurs_ci misgovernance_words "Record growth despite CorrupTION row").
  { exists "corruption". split; [apply list_elem_of_In; simpl; tauto |].
    exists "Record growth despite ", "CorrupTION", " row". split; reflexivity. }
  assert (Hgood : some_occurs_ci good_governance_words "Record growth despite CorrupTION row").
  { exists "growth". split; [apply list_elem_of_In; simpl; tauto |].
    exists "Record ", "growth", " despite CorrupTION row". split; reflexivity. }
  split; [exact Hbad | split; [exact Hgood |]].
  exact (proj1 (proj2 (proj2 (proj2
    (classify_govt_analysis "Record growth despite CorrupTION row")))) Hbad Hgood).
Defined.

Lemma any_in_central_false (title : string) :
  ~ some_occurs_ci central_words title -> ~ occurs_before_dotted_I "mod" title ->
  Str.any_in central_words (Str.lower title) = false.
Proof.
  intros Hno Hno'. destruct (Str.any_in central_words (Str.lower title)) eqn:E;
    [| reflexivity].
  apply central_words_spec in E. tauto.
Qed.

Example classify_kelvin_sign :
  classify_governance_sentiment ("DM" +:+ Str.kelvin_sign +:+ " cadres block highway")
    Protests_Against_Government = Some Anti_State.
Proof. reflexivity. Qed.

Example classify_capital_dotted_I :
  classify_governance_sentiment ("MOD" +:+ Str.capital_dotted_I +:+ " visit sparks rally")
    Protests_Against_Government = Some Anti_Central.
Proof. reflexivity. Qed.

(** C2: under the topic "Protests Against Government" a headline is labelled
    Anti State Government when dmk, stalin or "tamil nadu government" occurs
    in it up to letter case (this test comes first, so "stalin" together with
    "modi" is Anti State Government); otherwise Anti Central Government when
    modi, "bjp government" or "central government" occurs; otherwise General
    Protest. The result is never the no-label outcome. Letter case is that
    of [str.lower]: a Kelvin sign spells k, and "mod" before a capital I with
    dot above spells "modi". *)
Theorem classify_protests (title : string) :
  (some_occurs_ci state_words title ->
     classify_governance_sentiment title Protests_Against_Government = Some Anti_State)
  /\ (~ some_occurs_ci state_words title ->
      some_occurs_ci central_words title \/ occurs_before_dotted_I "mod" title ->
      classify_governance_sentiment title Protests_Against_Government = Some Anti_Central)
  /\ (~ some_occurs_ci state_words title ->
      ~ some_occurs_ci central_words title ->
      ~ occurs_before_dotted_I "mod" title ->
      classify_governance_sentiment title Protests_Against_Government = Some General_Protest)
  /\ (occurs_ci "stalin" title -> occurs_ci "modi" title ->
      classify_governance_sentiment title Protests_Against_Government = Some Anti_State)
  /\ classify_governance_sentiment title Protests_Against_Government <> None.
Proof.
  assert (Hstate : some_occurs_ci state_words title ->
     classify_governance_sentiment title Protests_Against_Government = Some Anti_State).
  { intros H. rewrite classify_protests_unfold.
    apply (any_in_lower_spec _ _ state_words_lower) in H. now rewrite H. }
  repeat split.
  - exact Hstate.
  - intros Hno Hc. rewrite classify_protests_unfold.
    rewrite (any_in_lower_false _ _ state_words_lower Hno).
    apply central_words_spec in Hc. now rewrite Hc.
  - intros Hno Hno' Hno''. rewrite classify_protests_unfold.
    rewrite (any_in_lower_false _ _ state_words_lower Hno).
    now rewrite (any_in_central_false title Hno' Hno'').
  - intros Hs _. apply Hstate.
    apply (occurs_ci_some "stalin"); [apply list_elem_of_In; simpl; tauto | exact Hs].
  - rewrite classify_protests_unfold.
    destruct (Str.any_in state_words _); [discriminate |].
    destruct (Str.any_in central_words _); discriminate.
Qed.

Lemma classify_protests_witness :
  occurs_ci "stalin" "STALIN and Modi trade charges over strike"
  /\ occurs_ci "modi" "STALIN and Modi trade charges over strike"
  /\ classify_governance_sentiment "STALIN and Modi trade charges over strike"
       Protests_Against_Government = Some Anti_State.
Proof.
  assert (Hs : occurs_ci "stalin" "STALIN and Modi trade charges over strike").
  { exists EmptyString, "STALIN", " and Modi trade charges over strike".
    split; reflexivity. }
  assert (Hm : occurs_ci "modi" "STALIN and Modi trade charges over strike").
  { exists "STALIN and ", "Modi", " trade charges over strike". split; reflexivity. }
  split; [exact Hs | split; [exact Hm |]].
  exact (proj1 (proj2 (proj2 (proj2
    (classify_protests "STALIN and Modi trade charges over strike")))) Hs Hm).
Defined.

(** C10: for a topic that is neither "Govt Analysis" nor "Protests Against
    Government" the classifier returns no label, whatever the headline; and
    it returns no label for a "Govt Analysis" headline in which no keyword of
    either list occurs. *)
Theorem classify_fallback_none (title topic : string) :
  (topic <> Govt_Analysis -> topic <> Protests_Against_Government ->
     classify_governance_sentiment title topic = None)
  /\ (~ some_occurs_ci misgovernance_words title ->
      ~ some_occurs_ci good_governance_words title ->
      classify_governance_sentiment title Govt_Analysis = None).
Proof.
  split.
  - intros Hg Hp. unfold classify_governance_sentiment.
    apply String.eqb_neq in Hg, Hp. now rewrite Hg, Hp.
  - intros Hno Hno'. rewrite classify_govt_unfold.
    rewrite (any_in_lower_false _ _ misgovernance_words_lower Hno).
    now rewrite (any_in_lower_false _ _ good_governance_words_lower Hno').
Qed.

Lemma classify_fallback_none_witness :
  classify_governance_sentiment "DMK corruption row" "Sports" = None.
Proof.
  apply (proj1 (classify_fallback_none "DMK corruption row" "Sports")).
  - unfold Govt_Analysis. discriminate.
  - unfold Protests_Against_Government. discriminate.
Defined.

(** ** Loops *)

Lemma for_each_app {S A : Type} (body : S -> A -> result S) (s : S) (xs ys : list A) :
  for_each body s (xs ++ ys) = s' ← for_each body s xs; for_each body s' ys.
Proof.
  revert s; induction xs as [|x xs IH]; intros s; [reflexivity |].
  cbn [for_each app]. destruct (body s x) as [s1|e]; [apply IH | reflexivity].
Qed.

(** The two nested loops read the feeds one after the other. *)
Lemma for_each_nested {S A B : Type} (body : S -> B -> result S) (f : A -> list B)
    (s : S) (xs : list A) :
  for_each (fun s x => for_each body s (f x)) s xs = for_each body s (xs ≫= f).
Proof.
  revert s; induction xs as [|x xs IH]; intros s; [reflexivity |].
  cbn [for_each]. rewrite bind_cons, for_each_app.
  destruct (for_each body s (f x)) as [s1|e]; [apply IH | reflexivity].
Qed.

Lemma fetch_news_unfold (w : world) (topic : string) (days_filter : Z) (urls : list string) :
  search_queries !! topic = Some urls ->
  fetch_news w topic days_filter =
    st ← for_each (process_entry w topic days_filter) initial_state (feed_stream w urls);
    Ok {| columns := news_columns; rows := news_data st |}.
Proof.
  intros Hq. unfold fetch_news, feed_stream. rewrite Hq.
  now rewrite for_each_nested.
Qed.

Lemma search_queries_govt :
  search_queries !! Govt_Analysis = Some [misgovernance_feed; good_governance_feed].
Proof. unfold search_queries. now rewrite lookup_insert_eq. Qed.

Lemma search_queries_protests :
  search_queries !! Protests_Against_Government = Some [protest_feed].
Proof.
  unfold search_queries.
  rewrite lookup_insert_ne by (unfold Govt_Analysis, Protests_Against_Government; discriminate).
  now rewrite lookup_insert_eq.
Qed.

(** A topic that is not a key of [search_queries] ends the call at once. *)
Lemma fetch_news_unknown_topic (w : world) (topic : string) (days_filter : Z) :
  topic <> Govt_Analysis -> topic <> Protests_Against_Government ->
  fetch_news w topic days_filter = Raise (KeyError topic).
Proof.
  intros Hg Hp. unfold fetch_news, search_queries.
  rewrite lookup_insert_ne by congruence. rewrite lookup_insert_ne by congruence.
  now rewrite lookup_empty.
Qed.

(** ** Positions in the stream *)

Lemma observe_from_cons (k : nat) (ep : entry * Z) (l : list (entry * Z)) :
  observe_from k (ep :: l) =
    {| pos := k; ent := ep.1; stamp := ep.2 |} :: observe_from (S k) l.
Proof.
  unfold observe_from. rewrite imap_cons. f_equal.
  - f_equal. lia.
  - apply imap_ext. intros i x _. simpl. f_equal. lia.
Qed.

Lemma observe_from_app (k : nat) (l1 l2 : list (entry * Z)) :
  observe_from k (l1 ++ l2) = observe_from k l1 ++ observe_from (k + length l1) l2.
Proof.
  unfold observe_from. rewrite imap_app. f_equal.
  apply imap_ext. intros i x _. simpl. f_equal. lia.
Qed.

Lemma observe_from_length (k : nat) (l : list (entry * Z)) :
  length (observe_from k l) = length l.
Proof. unfold observe_from. apply length_imap. Qed.

Lemma take_observed_prefix (pre l : list (entry * Z)) :
  take (length pre) (observe_from 0 (pre ++ l)) = observe_from 0 pre.
Proof.
  rewrite observe_from_app.
  rewrite <- (observe_from_length 0 pre) at 1. apply take_app_length.
Qed.

Lemma observe_from_lookup (k i : nat) (l : list (entry * Z)) (x : observed) :
  observe_from k l !! i = Some x ->
  exists ep, l !! i = Some ep /\ x = {| pos := k + i; ent := ep.1; stamp := ep.2 |}.
Proof.
  unfold observe_from. rewrite list_lookup_imap.
  destruct (l !! i) as [ep|]; simpl; [| discriminate].
  intros [= <-]. now exists ep.
Qed.

(** ** The loop against the specification's filter *)

Lemma loop_invariant_initial (w : world) (topic : string) (days_filter : Z) :
  loop_invariant w topic days_filter [] initial_state.
Proof.
  split; [reflexivity |]. intros t. split.
  - intros H. now apply not_elem_of_empty in H.
  - intros (y & Hy & _). now apply not_elem_of_nil in Hy.
Qed.

Lemma same_title_spec (x y : observed) :
  same_title x y = true <-> title (ent x) = title (ent y).
Proof. unfold same_title. apply String.eqb_eq. Qed.

Lemma labelled_same_title (topic : string) (x y : observed) :
  title (ent x) = title (ent y) -> labelled topic x = labelled topic y.
Proof. unfold labelled. now intros ->. Qed.

Lemma first_recent_spec (w : world) (days_filter : Z) (all : list observed) (x : observed) :
  first_recent w days_filter all x = true <->
  forall y, y ∈ take (pos x) all -> recent w days_filter y = true ->
            title (ent y) <> title (ent x).
Proof.
  unfold first_recent. rewrite forallb_forall. split.
  - intros H y Hy Hr Ht. apply list_elem_of_In in Hy. specialize (H y Hy).
    apply same_title_spec in Ht. now rewrite Hr, Ht in H.
  - intros H y Hy. apply list_elem_of_In in Hy.
    destruct (recent w days_filter y) eqn:Hr; [| reflexivity].
    destruct (same_title y x) eqn:Ht; [| reflexivity].
    apply same_title_spec in Ht. now destruct (H y Hy Hr).
Qed.

Lemma loop_step (w : world) (topic : string) (days_filter : Z)
    (pre : list (entry * Z)) (st : loop_state) (e : entry) (p : Z) (all : list observed) :
  loop_invariant w topic days_filter pre st ->
  strptime w (published e) = Some p ->
  take (length pre) all = observe_from 0 pre ->
  let x := {| pos := length pre; ent := e; stamp := p |} in
  exists st',
    process_entry w topic days_filter st e = Ok st' /\
    loop_invariant w topic days_filter (pre ++ [(e, p)]) st' /\
    news_data st' =
      news_data st ++
      (if survives w topic days_filter all x then [row_of topic x] else []).
Proof.
  intros [Hclock Hseen] Hparse Htake x.
  assert (Hobs : observe_from 0 (pre ++ [(e, p)]) = observe_from 0 pre ++ [x]).
  { rewrite observe_from_app, observe_from_cons. reflexivity. }
  assert (Hlen : length (pre ++ [(e, p)]) = S (length pre)).
  { rewrite length_app. simpl. lia. }
  assert (Hfirst : first_recent w days_filter all x = true <->
                   forall y, y ∈ observe_from 0 pre -> recent w days_filter y = true ->
                             title (ent y) <> title e).
  { rewrite first_recent_spec. simpl. now rewrite Htake. }
  unfold process_entry. rewrite Hparse, Hclock. cbn [all_news news_data clock_reads].
  change (passes_recency_filter (utcnow w (length pre)) p days_filter)
    with (recent w days_filter x).
  unfold survives.
  change (labelled topic x) with (truthy (classify_governance_sentiment (title e) topic)).
  destruct (recent w days_filter x) eqn:Hrecent; cbn [andb].
  2:{ (* too old: nothing but the clock moves *)
      eexists. split; [reflexivity |]. split; [| now rewrite app_nil_r].
      split; [now rewrite Hlen |]. cbn [all_news]. intros t. rewrite Hseen, Hobs. split.
      - intros (y & Hy & H). exists y. split; [apply elem_of_app; now left | exact H].
      - intros (y & Hy & Hr & H). apply elem_of_app in Hy as [Hy | Hy].
        + now exists y.
        + apply list_elem_of_singleton in Hy. subst y. congruence. }
  case_bool_decide as Hin.
  { (* a title already kept *)
    assert (Hnot : first_recent w days_filter all x = false).
    { apply not_true_is_false. rewrite Hfirst. intros H.
      apply Hseen in Hin as (y & Hy & Hr & _ & Ht). exact (H y Hy Hr Ht). }
    rewrite Hnot. cbn [andb].
    eexists. split; [reflexivity |]. split; [| now rewrite app_nil_r].
    split; [now rewrite Hlen |]. cbn [all_news]. intros t. rewrite Hobs. split.
    - intros Ht. apply Hseen in Ht as (y & Hy & H). exists y.
      split; [apply elem_of_app; now left | exact H].
    - intros (y & Hy & Hr & Hl & Ht). apply elem_of_app in Hy as [Hy | Hy].
      + apply Hseen. now exists y.
      + apply list_elem_of_singleton in Hy. subst y. simpl in Ht. now subst t. }
  destruct (truthy (classify_governance_sentiment (title e) topic)) eqn:Hlab.
  - (* kept: first recent entry of its title, with a label *)
    assert (Hyes : first_recent w days_filter all x = true).
    { apply Hfirst. intros y Hy Hr Ht. apply Hin, Hseen. exists y.
      repeat split; try assumption.
      rewrite (labelled_same_title topic y x Ht). exact Hlab. }
    rewrite Hyes. cbn [andb].
    unfold truthy in Hlab.
    destruct (classify_governance_sentiment (title e) topic) as [label|] eqn:Hc;
      [| discriminate].
    rewrite Hlab. eexists. split; [reflexivity |]. split.
    + split; [now rewrite Hlen |]. cbn [all_news]. intros t. rewrite Hobs.
      rewrite elem_of_union, elem_of_singleton. split.
      * intros [-> | Ht].
        -- exists x. split; [apply elem_of_app; right; now apply list_elem_of_singleton |].
           repeat split; [exact Hrecent |]. unfold labelled, truthy. simpl.
           now rewrite Hc.
        -- apply Hseen in Ht as (y & Hy & H). exists y.
           split; [apply elem_of_app; now left | exact H].
      * intros (y & Hy & Hr & Hl & Ht). apply elem_of_app in Hy as [Hy | Hy].
        -- right. apply Hseen. now exists y.
        -- apply list_elem_of_singleton in Hy. subst y. simpl in Ht. now left.
    + cbn [news_data]. unfold row_of. simpl. now rewrite Hc.
  - (* no label: dropped, and its title is not recorded *)
    rewrite andb_false_r.
    assert (Hstay : match classify_governance_sentiment (title e) topic with
                    | Some sentiment_label =>
                        if Str.nonempty sentiment_label then
                          Ok {| all_news := {[ title e ]} ∪ all_news st;
                                news_data := news_data st ++
                                  [make_item topic e p sentiment_label];
                                clock_reads := S (length pre) |}
                        else Ok {| all_news := all_news st; news_data := news_data st;
                                   clock_reads := S (length pre) |}
                    | None => Ok {| all_news := all_news st; news_data := news_data st;
                                    clock_reads := S (length pre) |}
                    end = Ok {| all_news := all_news st; news_data := news_data st;
                                clock_reads := S (length pre) |}).
    { unfold truthy in Hlab.
      destruct (classify_governance_sentiment (title e) topic); [now rewrite Hlab | reflexivity]. }
    rewrite Hstay. eexists. split; [reflexivity |]. split; [| now rewrite app_nil_r].
    split; [now rewrite Hlen |]. cbn [all_news]. intros t. rewrite Hobs. split.
    + intros Ht. apply Hseen in Ht as (y & Hy & H). exists y.
      split; [apply elem_of_app; now left | exact H].
    + intros (y & Hy & Hr & Hl & Ht). apply elem_of_app in Hy as [Hy | Hy].
      * apply Hseen. now exists y.
      * apply list_elem_of_singleton in Hy. subst y. unfold labelled in Hl. simpl in Hl.
        congruence.
Qed.

Lemma loop_refines (w : world) (topic : string) (days_filter : Z) (l : list (entry * Z)) :
  forall (pre : list (entry * Z)) (st : loop_state),
    Forall (fun ep => strptime w (published ep.1) = Some ep.2) l ->
    loop_invariant w topic days_filter pre st ->
    exists st',
      for_each (process_entry w topic days_filter) st (l.*1) = Ok st' /\
      news_data st' =
        news_data st ++
        (row_of topic <$>
           filter (fun x => survives w topic days_filter (observe_from 0 (pre ++ l)) x = true)
                  (observe_from (length pre) l)).
Proof.
  induction l as [|[e p] l IH]; intros pre st Hparse Hinv.
  - exists st. split; [reflexivity |]. simpl. now rewrite app_nil_r.
  - apply Forall_cons in Hparse as [Hp Hparse]. simpl in Hp.
    destruct (loop_step w topic days_filter pre st e p
                (observe_from 0 (pre ++ (e, p) :: l)) Hinv Hp
                (take_observed_prefix pre ((e, p) :: l)))
      as (st1 & Hstep & Hinv1 & Hdata1).
    destruct (IH (pre ++ [(e, p)]) st1 Hparse Hinv1) as (st' & Hrun & Hdata).
    exists st'. split.
    + cbn [fmap list_fmap for_each fst]. rewrite Hstep. exact Hrun.
    + rewrite Hdata, Hdata1. rewrite <- app_assoc. f_equal.
      rewrite <- app_assoc. cbn [app].
      rewrite length_app. cbn [length]. rewrite Nat.add_1_r.
      rewrite observe_from_cons, filter_cons. cbn [fst snd].
      destruct (survives w topic days_filter (observe_from 0 (pre ++ (e, p) :: l))
                  {| pos := length pre; ent := e; stamp := p |}) eqn:Hs.
      * rewrite decide_True by reflexivity. reflexivity.
      * rewrite decide_False by discriminate. reflexivity.
Qed.

Lemma parse_dates_spec (w : world) (stream : list entry) (dated : list (entry * Z)) :
  parse_dates w stream = Some dated <->
  dated.*1 = stream /\ Forall (fun ep => strptime w (published ep.1) = Some ep.2) dated.
Proof.
  unfold parse_dates. rewrite mapM_Some. split.
  - intros H. induction H as [|e ep stream dated He _ [IH1 IH2]]; [now split |].
    destruct (strptime w (published e)) as [p|] eqn:Hp; [| discriminate].
    simpl in He. injection He as <-. split.
    + rewrite fmap_cons. cbn [fst]. f_equal. exact IH1.
    + constructor; [exact Hp | exact IH2].
  - intros [<- H]. induction H as [|[e p] dated He _ IH]; [constructor |].
    simpl. constructor; [| exact IH]. simpl in He. now rewrite He.
Qed.

(** When the topic is configured and every date parses, the table returned
    by [fetch_news] holds the surviving entries, in reading order. *)
Lemma fetch_news_refines (w : world) (topic : string) (days_filter : Z)
    (urls : list string) (dated : list (entry * Z)) :
  search_queries !! topic = Some urls ->
  parse_dates w (feed_stream w urls) = Some dated ->
  fetch_news w topic days_filter =
    Ok {| columns := news_columns;
          rows := surviving_rows w topic days_filter (observe_from 0 dated) |}.
Proof.
  intros Hq Hd. apply parse_dates_spec in Hd as [Hstream Hparse].
  rewrite (fetch_news_unfold w topic days_filter urls Hq), <- Hstream.
  destruct (loop_refines w topic days_filter dated [] initial_state Hparse
              (loop_invariant_initial w topic days_filter)) as (st' & Hrun & Hdata).
  rewrite Hrun. cbn [mbind result_mbind result_bind]. f_equal.
  simpl in Hdata. rewrite Hdata. reflexivity.
Qed.

(** ** The recency filter *)

Lemma days_ago_spec (now published_date age : Z) :
  days_ago now published_date = age <->
  age * microseconds_per_day <= now - published_date < (age + 1) * microseconds_per_day.
Proof.
  unfold days_ago, timedelta_days, microseconds_per_day. split.
  - intros <-.
    pose proof (Z.mod_pos_bound (now - published_date) 86400000000 eq_refl).
    pose proof (Z.div_mod (now - published_date) 86400000000). lia.
  - intros H. symmetry. apply (Z.div_unique _ _ age (now - published_date - age * 86400000000)); lia.
Qed.

Lemma process_entry_too_old (w : world) (topic : string) (days_filter : Z)
    (st : loop_state) (e : entry) (p : Z) :
  strptime w (published e) = Some p ->
  passes_recency_filter (utcnow w (clock_reads st)) p days_filter = false ->
  process_entry w topic days_filter st e =
    Ok {| all_news := all_news st; news_data := news_data st;
          clock_reads := S (clock_reads st) |}.
Proof. intros Hp Hold. unfold process_entry. now rewrite Hp, Hold. Qed.

Lemma process_entry_kept (w : world) (topic : string) (days_filter : Z)
    (st : loop_state) (e : entry) (p : Z) (label : string) :
  strptime w (published e) = Some p ->
  passes_recency_filter (utcnow w (clock_reads st)) p days_filter = true ->
  title e ∉ all_news st ->
  classify_governance_sentiment (title e) topic = Some label ->
  Str.nonempty label = true ->
  process_entry w topic days_filter st e =
    Ok {| all_news := {[ title e ]} ∪ all_news st;
          news_data := news_data st ++ [make_item topic e p label];
          clock_reads := S (clock_reads st) |}.
Proof.
  intros Hp Hrecent Hnew Hc Hl. unfold process_entry.
  rewrite Hp, Hrecent. cbn [all_news news_data clock_reads].
  rewrite bool_decide_eq_false_2 by exact Hnew. now rewrite Hc, Hl.
Qed.

(** C3: the recency test lets an entry through exactly when its age in whole
    days, counted from the clock reading taken for that entry, is at most
    [days_filter]. An entry published exactly [days_filter] days before the
    reading passes; one published [days_filter + 1] days before it does not;
    the same holds when the age in whole days is [days_filter], respectively
    [days_filter + 1]. An entry that fails the test leaves no row and its title is not
    recorded; one that passes is appended when its title is new and it gets
    a label. *)
Theorem recency_filter_inclusive (w : world) (topic : string) (days_filter : Z)
    (st : loop_state) (e : entry) (p : Z) :
  strptime w (published e) = Some p ->
  let now := utcnow w (clock_reads st) in
  (passes_recency_filter now p days_filter = true <->
     exists age, age * microseconds_per_day <= now - p < (age + 1) * microseconds_per_day
                 /\ age <= days_filter)
  /\ (now - p = days_filter * microseconds_per_day ->
      passes_recency_filter now p days_filter = true)
  /\ (now - p = (days_filter + 1) * microseconds_per_day ->
      passes_recency_filter now p days_filter = false)
  /\ (days_ago now p = days_filter -> passes_recency_filter now p days_filter = true)
  /\ (days_ago now p = days_filter + 1 -> passes_recency_filter now p days_filter = false)
  /\ (passes_recency_filter now p days_filter = false ->
      process_entry w topic days_filter st e =
        Ok {| all_news := all_news st; news_data := news_data st;
              clock_reads := S (clock_reads st) |})
  /\ (passes_recency_filter now p days_filter = true ->
      forall label,
        title e ∉ all_news st ->
        classify_governance_sentiment (title e) topic = Some label ->
        Str.nonempty label = true ->
        process_entry w topic days_filter st e =
          Ok {| all_news := {[ title e ]} ∪ all_news st;
                news_data := news_data st ++ [make_item topic e p label];
                clock_reads := S (clock_reads st) |}).
Proof.
  intros Hp now.
  assert (Hiff : passes_recency_filter now p days_filter = true <->
     exists age, age * microseconds_per_day <= now - p < (age + 1) * microseconds_per_day
                 /\ age <= days_filter).
  { unfold passes_recency_filter. rewrite Z.leb_le. split.
    - intros H. exists (days_ago now p). split; [now apply days_ago_spec | exact H].
    - intros (age & Hage & Hle). apply days_ago_spec in Hage. now rewrite Hage. }
  split; [exact Hiff |]. split; [| split; [| split; [| split; [| split]]]].
  - intros Heq. apply Hiff. exists days_filter. unfold microseconds_per_day in *. lia.
  - intros Heq. apply not_true_is_false. rewrite Hiff. intros (age & Hage & Hle).
    unfold microseconds_per_day in *. nia.
  - intros Heq. unfold passes_recency_filter. rewrite Heq. apply Z.leb_refl.
  - intros Heq. unfold passes_recency_filter. rewrite Heq. apply Z.leb_gt. lia.
  - intros Hold. exact (process_entry_too_old w topic days_filter st e p Hp Hold).
  - intros Hrecent label Hnew Hc Hl.
    exact (process_entry_kept w topic days_filter st e p label Hp Hrecent Hnew Hc Hl).
Qed.

Lemma recency_filter_inclusive_witness :
  process_entry (example_world boundary_feeds) Protests_Against_Government 30
    initial_state strike_31_days
  = Ok {| all_news := ∅; news_data := []; clock_reads := 1 |}
  /\ passes_recency_filter (example_clock 0) 1791115200000000 30 = true.
Proof.
  split.
  - destruct (recency_filter_inclusive (example_world boundary_feeds)
                Protests_Against_Government 30 initial_state
                strike_31_days 1791028800000000 eq_refl) as (_ & _ & _ & _ & _ & Hold & _).
    apply Hold. reflexivity.
  - destruct (recency_filter_inclusive (example_world boundary_feeds)
                Protests_Against_Government 30 initial_state
                strike_30_days 1791115200000000 eq_refl) as (_ & Hon & _).
    apply Hon. reflexivity.
Defined.

(** ** Dates the parser refuses *)

Lemma process_entry_parsed (w : world) (topic : string) (days_filter : Z)
    (st : loop_state) (e : entry) :
  is_Some (strptime w (published e)) ->
  exists st', process_entry w topic days_filter st e = Ok st'.
Proof.
  intros [p Hp]. unfold process_entry. rewrite Hp.
  destruct (passes_recency_filter _ _ _); [| eauto].
  case_bool_decide; [eauto |].
  destruct (classify_governance_sentiment _ _) as [label|]; [| eauto].
  destruct (Str.nonempty label); eauto.
Qed.

Lemma process_entry_unparsed (w : world) (topic : string) (days_filter : Z)
    (st : loop_state) (e : entry) :
  strptime w (published e) = None ->
  process_entry w topic days_filter st e = Raise (ValueError (published e)).
Proof. intros Hp. unfold process_entry. now rewrite Hp. Qed.

(** The loop stops at the first entry whose date does not parse. *)
Lemma for_each_unparsed (w : world) (topic : string) (days_filter : Z) (l : list entry) :
  forall st : loop_state,
    (exists e, e ∈ l /\ strptime w (published e) = None) ->
    exists bad, bad ∈ l /\ strptime w (published bad) = None /\
      for_each (process_entry w topic days_filter) st l = Raise (ValueError (published bad)).
Proof.
  induction l as [|x l IH]; intros st (e & Hin & He).
  - now apply not_elem_of_nil in Hin.
  - destruct (strptime w (published x)) as [p|] eqn:Hx.
    + assert (Hrest : exists e, e ∈ l /\ strptime w (published e) = None).
      { apply elem_of_cons in Hin as [-> | Hin]; [congruence | eauto]. }
      destruct (process_entry_parsed w topic days_filter st x) as [st1 Hst1];
        [now rewrite Hx |].
      destruct (IH st1 Hrest) as (bad & Hbad & Hnone & Hrun).
      exists bad. split; [apply elem_of_cons; now right |]. split; [exact Hnone |].
      cbn [for_each]. now rewrite Hst1.
    + exists x. split; [apply elem_of_cons; now left |]. split; [exact Hx |].
      cbn [for_each]. now rewrite (process_entry_unparsed _ _ _ _ _ Hx).
Qed.

(** C5: when some entry of the topic's feeds carries a published date that
    the parser refuses, the call ends with the ValueError raised for the
    first such entry: no table is returned, not even for the entries that
    were read before it. *)
Theorem fetch_news_aborts_on_bad_date (w : world) (topic : string) (days_filter : Z)
    (urls : list string) (e : entry) :
  search_queries !! topic = Some urls ->
  e ∈ feed_stream w urls ->
  strptime w (published e) = None ->
  (exists bad, bad ∈ feed_stream w urls /\ strptime w (published bad) = None /\
     fetch_news w topic days_filter = Raise (ValueError (published bad)))
  /\ (forall df, fetch_news w topic days_filter <> Ok df).
Proof.
  intros Hq Hin He.
  destruct (for_each_unparsed w topic days_filter (feed_stream w urls) initial_state)
    as (bad & Hbad & Hnone & Hrun); [eauto |].
  assert (Hfetch : fetch_news w topic days_filter = Raise (ValueError (published bad))).
  { rewrite (fetch_news_unfold w topic days_filter urls Hq), Hrun. reflexivity. }
  split.
  - now exists bad.
  - intros df. rewrite Hfetch. discriminate.
Qed.

Lemma fetch_news_aborts_on_bad_date_witness :
  strptime (example_world broken_feeds) (published undated) = None
  /\ forall df, fetch_news (example_world broken_feeds) Govt_Analysis 30 <> Ok df.
Proof.
  split; [reflexivity |].
  apply (fetch_news_aborts_on_bad_date (example_world broken_feeds) Govt_Analysis 30
           [misgovernance_feed; good_governance_feed] undated).
  - reflexivity.
  - unfold feed_stream. apply list_elem_of_In. vm_compute. tauto.
  - reflexivity.
Defined.

Example fetch_news_bad_date_value :
  fetch_news (example_world broken_feeds) Govt_Analysis 30
  = Raise (ValueError "2026-11-03T12:00:00Z").
Proof. vm_compute. reflexivity. Qed.

(** ** What every state of the loop satisfies *)

Lemma for_each_invariant {S A : Type} (I : S -> Prop) (body : S -> A -> result S)
    (l : list A) :
  (forall s x s', I s -> body s x = Ok s' -> I s') ->
  forall s s', I s -> for_each body s l = Ok s' -> I s'.
Proof.
  intros Hbody. induction l as [|x l IH]; intros s s' Hs Hrun.
  - cbn [for_each] in Hrun. now injection Hrun as <-.
  - cbn [for_each] in Hrun. destruct (body s x) as [s1|err] eqn:Hx; [| discriminate].
    exact (IH s1 s' (Hbody s x s1 Hs Hx) Hrun).
Qed.

Lemma process_entry_cases (w : world) (topic : string) (days_filter : Z)
    (st st' : loop_state) (e : entry) :
  process_entry w topic days_filter st e = Ok st' ->
  (news_data st' = news_data st /\ all_news st' = all_news st)
  \/ (exists p label,
        (title e ∉ all_news st) /\
        classify_governance_sentiment (title e) topic = Some label /\
        news_data st' = news_data st ++ [make_item topic e p label] /\
        all_news st' = {[ title e ]} ∪ all_news st).
Proof.
  unfold process_entry. destruct (strptime w (published e)) as [p|]; [| discriminate].
  cbn [all_news news_data clock_reads].
  destruct (passes_recency_filter _ _ _); [| intros [= <-]; now left].
  case_bool_decide as Hin; [intros [= <-]; now left |].
  destruct (classify_governance_sentiment (title e) topic) as [label|] eqn:Hc;
    [| intros [= <-]; now left].
  destruct (Str.nonempty label); intros [= <-]; [| now left].
  right. now exists p, label.
Qed.

Lemma rows_invariant_step (w : world) (topic : string) (days_filter : Z)
    (st : loop_state) (e : entry) (st' : loop_state) :
  rows_invariant topic st ->
  process_entry w topic days_filter st e = Ok st' ->
  rows_invariant topic st'.
Proof.
  intros (Hlab & Hdup & Hseen) Hstep.
  apply process_entry_cases in Hstep
    as [[Hdata Hset] | (p & label & Hnew & Hc & Hdata & Hset)].
  - unfold rows_invariant. now rewrite Hdata, Hset.
  - unfold rows_invariant. rewrite Hdata, Hset. split; [| split].
    + apply Forall_app. split; [exact Hlab |]. constructor; [| constructor].
      simpl. now split.
    + rewrite fmap_app. apply NoDup_app. split; [exact Hdup |]. split.
      * intros t Ht Ht'. cbn in Ht'. apply list_elem_of_singleton in Ht'. subst t.
        apply list_elem_of_fmap in Ht as (r & Hr & Hin). apply Hnew.
        rewrite Hr. now apply Hseen.
      * cbn. apply NoDup_singleton.
    + intros r Hr. apply elem_of_app in Hr as [Hr | Hr].
      * apply elem_of_union. right. now apply Hseen.
      * apply list_elem_of_singleton in Hr. subst r. apply elem_of_union. left.
        now apply elem_of_singleton.
Qed.

Lemma fetch_news_ok_inv (w : world) (topic : string) (days_filter : Z)
    (df : DataFrame news_item) :
  fetch_news w topic days_filter = Ok df ->
  exists urls st,
    search_queries !! topic = Some urls /\
    for_each (process_entry w topic days_filter) initial_state (feed_stream w urls) = Ok st /\
    df = {| columns := news_columns; rows := news_data st |}.
Proof.
  intros Hf. destruct (search_queries !! topic) as [urls|] eqn:Hq.
  - rewrite (fetch_news_unfold w topic days_filter urls Hq) in Hf.
    destruct (for_each _ _ _) as [st|err] eqn:Hrun; [| discriminate].
    cbn in Hf. injection Hf as <-. now exists urls, st.
  - unfold fetch_news in Hf. now rewrite Hq in Hf.
Qed.

Lemma fetch_news_rows_invariant (w : world) (topic : string) (days_filter : Z)
    (df : DataFrame news_item) :
  fetch_news w topic days_filter = Ok df ->
  columns df = news_columns
  /\ Forall (fun r => Category r = topic /\
                      classify_governance_sentiment (Title r) topic = Some (Sentiment r))
            (rows df)
  /\ NoDup (Title <$> rows df).
Proof.
  intros Hf. apply fetch_news_ok_inv in Hf as (urls & st & _ & Hrun & ->).
  assert (Hinv : rows_invariant topic st).
  { apply (for_each_invariant (rows_invariant topic)
             (process_entry w topic days_filter) (feed_stream w urls)
             (fun s x s' => rows_invariant_step w topic days_filter s x s')
             initial_state st); [| exact Hrun].
    split; [constructor | split; [constructor |]].
    intros r Hr. now apply not_elem_of_nil in Hr. }
  destruct Hinv as (Hlab & Hdup & _). now split.
Qed.

(** ** Labels of the fetched rows *)

Example fetch_news_govt_example :
  fetch_news (example_world govt_feeds) Govt_Analysis 30 =
    Ok {| columns := ["Category"; "Title"; "Published Date"; "URL"; "Sentiment"];
          rows :=
            [ {| Category := "Govt Analysis";
                 Title := "TN govt hit by corruption scandal";
                 Published_Date := 20758;
                 URL := "https://news.example/scandal";
                 Sentiment := "Misgovernance (TN Govt Only)" |};
              {| Category := "Govt Analysis";
                 Title := "TN achieves record growth";
                 Published_Date := 20746;
                 URL := "https://news.example/growth";
                 Sentiment := "Good Governance (TN Govt Only)" |};
              {| Category := "Govt Analysis";
                 Title := "Water project success in Madurai";
                 Published_Date := 20759;
                 URL := "https://news.example/water";
                 Sentiment := "Good Governance (TN Govt Only)" |} ] |}.
Proof. vm_compute. reflexivity. Qed.


Lemma classify_govt_range (title label : string) :
  classify_governance_sentiment title Govt_Analysis = Some label -> label ∈ govt_labels.
Proof.
  rewrite classify_govt_unfold. unfold govt_labels.
  destruct (Str.any_in misgovernance_words _).
  - intros [= <-]. apply list_elem_of_In. simpl. tauto.
  - destruct (Str.any_in good_governance_words _); [| discriminate].
    intros [= <-]. apply list_elem_of_In. simpl. tauto.
Qed.

Lemma classify_protests_range (title label : string) :
  classify_governance_sentiment title Protests_Against_Government = Some label ->
  label ∈ protest_labels.
Proof.
  rewrite classify_protests_unfold. unfold protest_labels.
  destruct (Str.any_in state_words _); [| destruct (Str.any_in central_words _)];
    intros [= <-]; apply list_elem_of_In; simpl; tauto.
Qed.

Lemma isin_Sentiment_id (labels : list string) (df : DataFrame news_item) :
  Forall (fun r => Sentiment r ∈ labels) (rows df) ->
  isin_Sentiment labels df = df.
Proof.
  intros H. destruct df as [cols rs]. unfold isin_Sentiment. cbn [columns rows] in *.
  f_equal. induction H as [|r rs Hr _ IH]; [reflexivity |].
  rewrite filter_cons, decide_True by exact Hr. now rewrite IH.
Qed.

(** C9: every row of the table returned for "Govt Analysis" carries one of
    the two labels of that topic, every row of the table returned for
    "Protests Against Government" one of its three labels; the label filter
    the presentation layer applies next returns the table as it is, so each
    tab shows exactly what the fetch returned. *)
Theorem label_filter_is_identity (w : world) (days_filter : Z) :
  (forall df, fetch_news w Govt_Analysis days_filter = Ok df ->
     Forall (fun r => Sentiment r ∈ [Good_Governance; Misgovernance]) (rows df)
     /\ isin_Sentiment [Good_Governance; Misgovernance] df = df)
  /\ (forall df, fetch_news w Protests_Against_Government days_filter = Ok df ->
      Forall (fun r => Sentiment r ∈ [Anti_State; Anti_Central; General_Protest]) (rows df)
      /\ isin_Sentiment [Anti_State; Anti_Central; General_Protest] df = df)
  /\ df_selected_govt w days_filter = fetch_news w Govt_Analysis days_filter
  /\ df_selected_protests w days_filter =
       fetch_news w Protests_Against_Government days_filter.
Proof.
  assert (Hg : forall df, fetch_news w Govt_Analysis days_filter = Ok df ->
     Forall (fun r => Sentiment r ∈ [Good_Governance; Misgovernance]) (rows df)
     /\ isin_Sentiment [Good_Governance; Misgovernance] df = df).
  { intros df Hf. apply fetch_news_rows_invariant in Hf as (_ & Hlab & _).
    assert (H : Forall (fun r => Sentiment r ∈ govt_labels) (rows df)).
    { eapply Forall_impl; [exact Hlab |]. intros r [_ Hc].
      exact (classify_govt_range _ _ Hc). }
    split; [exact H | exact (isin_Sentiment_id _ _ H)]. }
  assert (Hp : forall df, fetch_news w Protests_Against_Government days_filter = Ok df ->
      Forall (fun r => Sentiment r ∈ [Anti_State; Anti_Central; General_Protest]) (rows df)
      /\ isin_Sentiment [Anti_State; Anti_Central; General_Protest] df = df).
  { intros df Hf. apply fetch_news_rows_invariant in Hf as (_ & Hlab & _).
    assert (H : Forall (fun r => Sentiment r ∈ protest_labels) (rows df)).
    { eapply Forall_impl; [exact Hlab |]. intros r [_ Hc].
      exact (classify_protests_range _ _ Hc). }
    split; [exact H | exact (isin_Sentiment_id _ _ H)]. }
  split; [exact Hg |]. split; [exact Hp |]. split.
  - unfold df_selected_govt.
    destruct (fetch_news w Govt_Analysis days_filter) as [df|e] eqn:Hf; [| reflexivity].
    cbn. f_equal. exact (proj2 (Hg df eq_refl)).
  - unfold df_selected_protests.
    destruct (fetch_news w Protests_Against_Government days_filter) as [df|e] eqn:Hf;
      [| reflexivity].
    cbn. f_equal. exact (proj2 (Hp df eq_refl)).
Qed.

Lemma label_filter_is_identity_witness :
  exists df,
    fetch_news (example_world govt_feeds) Govt_Analysis 30 = Ok df
    /\ length (rows df) = 3%nat
    /\ isin_Sentiment [Good_Governance; Misgovernance] df = df.
Proof.
  eexists. split; [exact fetch_news_govt_example |]. split; [reflexivity |].
  exact (proj2 (proj1 (label_filter_is_identity (example_world govt_feeds) 30)
                  _ fetch_news_govt_example)).
Defined.

(** ** The returned table *)

Lemma Sorted_head_rel {A : Type} (R : A -> A -> Prop) (x y : A) (l : list A) :
  Sorted R (x :: y :: l) -> R x y.
Proof. intros H. apply Sorted_inv in H as [_ H]. now apply HdRel_inv in H. Qed.

Lemma Sorted_tail {A : Type} (R : A -> A -> Prop) (x : A) (l : list A) :
  Sorted R (x :: l) -> Sorted R l.
Proof. intros H. now apply Sorted_inv in H as [H _]. Qed.

(** A call that returns a table has read a configured topic and parsed the
    date of every entry. *)
Lemma fetch_news_ok_parsed (w : world) (topic : string) (days_filter : Z)
    (df : DataFrame news_item) :
  fetch_news w topic days_filter = Ok df ->
  exists urls dated,
    search_queries !! topic = Some urls /\
    parse_dates w (feed_stream w urls) = Some dated.
Proof.
  intros Hf. destruct (fetch_news_ok_inv w topic days_filter df Hf)
    as (urls & st & Hq & Hrun & _).
  exists urls. destruct (parse_dates w (feed_stream w urls)) as [dated|] eqn:Hd.
  - now exists dated.
  - exfalso. unfold parse_dates in Hd.
    assert (Hbad : exists e, e ∈ feed_stream w urls /\ strptime w (published e) = None).
    { apply eq_None_not_Some in Hd. rewrite mapM_is_Some in Hd.
      apply not_Forall_Exists in Hd; [| intros e; apply _].
      apply Exists_exists in Hd as (e & Hin & He). exists e. split; [exact Hin |].
      cbn in He. destruct (strptime w (published e)); [| reflexivity].
      destruct He. cbn. eauto. }
    destruct (for_each_unparsed w topic days_filter (feed_stream w urls) initial_state Hbad)
      as (bad & _ & _ & Hraise).
    rewrite Hraise in Hrun. discriminate.
Qed.

(** C8: when the topic is configured and every published date parses, the
    call returns a table whose columns are Category, Title, Published Date,
    URL, Sentiment and whose rows are the surviving entries (inside the
    recency window, first of their title among those, labelled), one row
    each, in the order in which the feeds were read; and every table a call
    returns is of this kind. The rows are not sorted: in the example neither
    the dates nor the titles are in ascending or descending order. *)
Theorem fetch_news_table_shape :
  (forall (w : world) (topic : string) (days_filter : Z) (urls : list string)
          (dated : list (entry * Z)),
      search_queries !! topic = Some urls ->
      parse_dates w (feed_stream w urls) = Some dated ->
      exists df,
        fetch_news w topic days_filter = Ok df
        /\ columns df = ["Category"; "Title"; "Published Date"; "URL"; "Sentiment"]
        /\ rows df =
             (row_of topic <$>
                filter (fun x => survives w topic days_filter (observe_from 0 dated) x = true)
                       (observe_from 0 dated))
        /\ length (rows df) =
             length (filter (fun x => survives w topic days_filter (observe_from 0 dated) x = true)
                            (observe_from 0 dated)))
  /\ (forall (w : world) (topic : string) (days_filter : Z) (df : DataFrame news_item),
        fetch_news w topic days_filter = Ok df ->
        columns df = ["Category"; "Title"; "Published Date"; "URL"; "Sentiment"]
        /\ exists urls dated,
             search_queries !! topic = Some urls
             /\ parse_dates w (feed_stream w urls) = Some dated
             /\ rows df =
                  (row_of topic <$>
                     filter (fun x => survives w topic days_filter (observe_from 0 dated) x = true)
                            (observe_from 0 dated)))
  /\ (exists df,
        fetch_news (example_world govt_feeds) Govt_Analysis 30 = Ok df
        /\ ~ Sorted Z.le (Published_Date <$> rows df)
        /\ ~ Sorted Z.ge (Published_Date <$> rows df)
        /\ ~ Sorted (fun a b => String.leb a b = true) (Title <$> rows df)
        /\ ~ Sorted (fun a b => String.leb b a = true) (Title <$> rows df)).
Proof.
  split; [| split].
  - intros w topic days_filter urls dated Hq Hd. eexists.
    split; [exact (fetch_news_refines w topic days_filter urls dated Hq Hd) |].
    cbn [columns rows]. split; [reflexivity |]. split; [reflexivity |].
    unfold surviving_rows. apply length_fmap.
  - intros w topic days_filter df Hf.
    destruct (fetch_news_ok_parsed w topic days_filter df Hf) as (urls & dated & Hq & Hd).
    pose proof (fetch_news_refines w topic days_filter urls dated Hq Hd) as Hr.
    rewrite Hf in Hr. injection Hr as ->. cbn [columns rows].
    split; [reflexivity |]. now exists urls, dated.
  - eexists. split; [exact fetch_news_govt_example |]. cbn [rows fmap list_fmap
      Published_Date Title].
    split; [| split; [| split]]; intros H.
    + apply Sorted_head_rel in H. lia.
    + apply Sorted_tail, Sorted_head_rel in H. lia.
    + apply Sorted_head_rel in H. vm_compute in H. discriminate.
    + apply Sorted_tail, Sorted_head_rel in H. vm_compute in H. discriminate.
Qed.

Lemma fetch_news_table_shape_witness :
  exists df,
    fetch_news (example_world govt_feeds) Govt_Analysis 30 = Ok df
    /\ columns df = ["Category"; "Title"; "Published Date"; "URL"; "Sentiment"]
    /\ length (rows df) = 3%nat.
Proof.
  destruct (proj1 fetch_news_table_shape (example_world govt_feeds) Govt_Analysis 30
              [misgovernance_feed; good_governance_feed]
              [ (scandal, 1793524500000000); (record_growth, 1792519200000000);
                (water_success, 1793602800000000) ] eq_refl eq_refl)
    as (df & Hf & Hcols & _ & Hlen).
  exists df. split; [exact Hf |]. split; [exact Hcols |].
  rewrite Hlen. vm_compute. reflexivity.
Defined.

(** ** One row per title *)

Lemma observe_from_elem (l : list (entry * Z)) (x : observed) :
  x ∈ observe_from 0 l -> observe_from 0 l !! pos x = Some x.
Proof.
  intros Hx. apply list_elem_of_lookup in Hx as [i Hi].
  destruct (observe_from_lookup 0 i l x Hi) as (ep & _ & ->). exact Hi.
Qed.

Lemma filter_ext_elem {A : Type} (P Q : A -> Prop)
    `{!forall x, Decision (P x)} `{!forall x, Decision (Q x)} (l : list A) :
  (forall x, x ∈ l -> P x <-> Q x) -> filter P l = filter Q l.
Proof.
  induction l as [|a l IH]; intros Hall; [reflexivity |].
  rewrite !filter_cons.
  assert (Ha : P a <-> Q a) by (apply Hall; apply elem_of_cons; now left).
  assert (Hl : filter P l = filter Q l).
  { apply IH. intros x Hx. apply Hall. apply elem_of_cons. now right. }
  destruct (decide (P a)) as [Hp | Hp], (decide (Q a)) as [Hq | Hq];
    rewrite ?Hl; tauto.
Qed.

(** Only the verdicts of the recency filter depend on the clock. *)
Lemma survives_later_call (w : world) (clock : nat -> Z) (topic : string)
    (days_filter : Z) (all : list observed) (x : observed) :
  (forall y, y ∈ all -> recent (later_call w clock) days_filter y = recent w days_filter y) ->
  x ∈ all ->
  survives (later_call w clock) topic days_filter all x = survives w topic days_filter all x.
Proof.
  intros Hsame Hx. unfold survives. rewrite (Hsame x Hx). f_equal. f_equal.
  apply eq_true_iff_eq. rewrite !first_recent_spec. split; intros H y Hy Hr.
  - apply H; [exact Hy |]. rewrite Hsame; [exact Hr |]. now apply (subseteq_take (pos x)).
  - apply H; [exact Hy |]. rewrite <- Hsame; [exact Hr |]. now apply (subseteq_take (pos x)).
Qed.

Lemma fetch_news_later_call (w : world) (clock : nat -> Z) (topic : string)
    (days_filter : Z) (urls : list string) (dated : list (entry * Z)) :
  search_queries !! topic = Some urls ->
  parse_dates w (feed_stream w urls) = Some dated ->
  (forall y, y ∈ observe_from 0 dated ->
             recent (later_call w clock) days_filter y = recent w days_filter y) ->
  fetch_news (later_call w clock) topic days_filter = fetch_news w topic days_filter.
Proof.
  intros Hq Hd Hsame.
  rewrite (fetch_news_refines w topic days_filter urls dated Hq Hd).
  rewrite (fetch_news_refines (later_call w clock) topic days_filter urls dated Hq Hd).
  unfold surviving_rows. do 3 f_equal. apply filter_ext_elem. intros x Hx.
  now rewrite (survives_later_call w clock topic days_filter _ x Hsame Hx).
Qed.

Example fetch_news_stale_first_example :
  fetch_news (example_world stale_first_feeds) Protests_Against_Government 30 =
    Ok {| columns := news_columns;
          rows := [ {| Category := "Protests Against Government";
                       Title := "DMK rally brings Chennai to a halt";
                       Published_Date := 20760;
                       URL := "https://news.example/rally-november";
                       Sentiment := "Anti TN State Government" |} ] |}.
Proof. vm_compute. reflexivity. Qed.

(** C4, as stated, fails: when the first entry with a title is older than the
    recency window and a later entry with the same title is inside it, the
    row that is kept comes from the later entry. *)
Lemma first_in_stream_counterexample :
  ~ retains_first_in_stream (example_world stale_first_feeds) Protests_Against_Government 30.
Proof.
  intros H.
  destruct (H [protest_feed]
              [ (rally_old, 1782894600000000); (rally_new, 1793707200000000) ]
              _ eq_refl eq_refl fetch_news_stale_first_example)
    as (kept & Hsub & Hrows & Hfirst).
  cbn [rows] in Hrows.
  destruct kept as [|x [|x' kept]]; try discriminate.
  injection Hrows as Hrow.
  assert (Hx : x ∈ observe_from 0
                 [ (rally_old, 1782894600000000); (rally_new, 1793707200000000) ]).
  { eapply sublist_subseteq; [exact Hsub |]. apply elem_of_cons. now left. }
  specialize (Hfirst x (ltac:(apply elem_of_cons; now left))).
  cbn in Hx. apply elem_of_cons in Hx as [-> | Hx].
  - vm_compute in Hrow. discriminate.
  - apply list_elem_of_singleton in Hx. subst x.
    apply (Hfirst {| pos := 0; ent := rally_old; stamp := 1782894600000000 |}).
    + cbn. apply elem_of_cons. now left.
    + reflexivity.
Qed.

Lemma forallb_false_elem {A : Type} (f : A -> bool) (l : list A) :
  forallb f l = false -> exists y, y ∈ l /\ f y = false.
Proof.
  induction l as [|a l IH]; cbn [forallb]; [discriminate |].
  destruct (f a) eqn:Ha; cbn [andb]; intros H.
  - destruct (IH H) as (y & Hy & Hfy). exists y. split; [| exact Hfy].
    apply elem_of_cons. now right.
  - exists a. split; [| exact Ha]. apply elem_of_cons. now left.
Qed.

(** The entries read before position [n] are those with a smaller position. *)
Lemma observe_from_take_elem (l : list (entry * Z)) (n : nat) (y : observed) :
  y ∈ take n (observe_from 0 l) <-> y ∈ observe_from 0 l /\ (pos y < n)%nat.
Proof.
  rewrite elem_of_take. split.
  - intros (i & Hi & Hlt). split; [apply list_elem_of_lookup; now exists i |].
    destruct (observe_from_lookup 0 i l y Hi) as (ep & _ & ->). exact Hlt.
  - intros [Hy Hlt]. exists (pos y). split; [now apply observe_from_elem | exact Hlt].
Qed.

Lemma observe_from_pos_inj (l : list (entry * Z)) (x y : observed) :
  x ∈ observe_from 0 l -> y ∈ observe_from 0 l -> pos x = pos y -> x = y.
Proof.
  intros Hx Hy Hpos. apply observe_from_elem in Hx, Hy. rewrite Hpos in Hx. congruence.
Qed.

(** Which entries survive, in the words of the specification. *)
Lemma survives_spec (w : world) (topic : string) (days_filter : Z)
    (l : list (entry * Z)) (x : observed) :
  survives w topic days_filter (observe_from 0 l) x = true <->
  recent w days_filter x = true /\ labelled topic x = true /\
  forall y, y ∈ observe_from 0 l -> (pos y < pos x)%nat ->
            recent w days_filter y = true -> title (ent y) <> title (ent x).
Proof.
  unfold survives. rewrite !andb_true_iff, first_recent_spec. split.
  - intros [[Hr Hfirst] Hl]. split; [exact Hr |]. split; [exact Hl |].
    intros y Hy Hlt. apply Hfirst. apply observe_from_take_elem. now split.
  - intros (Hr & Hl & Hfirst). split; [split; [exact Hr |] | exact Hl].
    intros y Hy. apply observe_from_take_elem in Hy as [Hy Hlt]. now apply Hfirst.
Qed.

(** Among the entries of one title that pass the recency filter there is a
    first one. *)
Lemma first_recent_exists (w : world) (days_filter : Z) (l : list (entry * Z))
    (x : observed) :
  x ∈ observe_from 0 l -> recent w days_filter x = true ->
  exists z, z ∈ observe_from 0 l /\ (pos z <= pos x)%nat /\
            title (ent z) = title (ent x) /\ recent w days_filter z = true /\
            first_recent w days_filter (observe_from 0 l) z = true.
Proof.
  remember (pos x) as n eqn:Hn. revert x Hn.
  induction n as [n IH] using lt_wf_ind. intros x -> Hx Hr.
  destruct (first_recent w days_filter (observe_from 0 l) x) eqn:Hf.
  - exists x. split; [exact Hx |]. split; [lia |]. now split.
  - unfold first_recent in Hf. apply forallb_false_elem in Hf as (y & Hy & Hfy).
    apply negb_false_iff, andb_prop in Hfy as [Hry Hty].
    apply same_title_spec in Hty. apply observe_from_take_elem in Hy as [Hy Hlt].
    destruct (IH (pos y) Hlt y eq_refl Hy Hry) as (z & Hz & Hle & Htz & Hrz & Hfz).
    exists z. split; [exact Hz |]. split; [lia |]. split; [congruence |]. now split.
Qed.

(** C4, amended: the call returns a table whose rows have pairwise distinct
    titles, and the rows are those of the kept entries, in reading order. An
    entry is kept exactly when it passes the recency filter, its title gets a
    label, and no entry read before it has the same title and passed the
    filter. So of the entries that share a labelled title and pass the filter
    the first one is kept and it alone; an entry read after it is not kept;
    and an earlier entry that was discarded as too old does not stand in the
    way of a later one that passes. Nothing is remembered between calls: a
    later call over the same feeds in which every entry gets the same verdict
    of the recency filter returns the same rows again. *)
Theorem fetch_news_first_recent_title (w : world) (topic : string) (days_filter : Z)
    (urls : list string) (dated : list (entry * Z)) :
  search_queries !! topic = Some urls ->
  parse_dates w (feed_stream w urls) = Some dated ->
  exists df kept,
    fetch_news w topic days_filter = Ok df
    /\ sublist kept (observe_from 0 dated)
    /\ rows df = row_of topic <$> kept
    /\ NoDup (Title <$> rows df)
    /\ (forall x, x ∈ observe_from 0 dated ->
          (x ∈ kept <->
           recent w days_filter x = true /\ labelled topic x = true /\
           forall y, y ∈ observe_from 0 dated -> (pos y < pos x)%nat ->
                     recent w days_filter y = true ->
                     title (ent y) <> title (ent x)))
    /\ (forall x, x ∈ observe_from 0 dated ->
          recent w days_filter x = true -> labelled topic x = true ->
          exists z, z ∈ kept /\ title (ent z) = title (ent x) /\ (pos z <= pos x)%nat /\
                    forall y, y ∈ kept -> title (ent y) = title (ent x) -> y = z)
    /\ (forall x y,
          x ∈ observe_from 0 dated -> y ∈ observe_from 0 dated ->
          (pos x < pos y)%nat -> title (ent x) = title (ent y) ->
          recent w days_filter x = true -> y ∉ kept)
    /\ (forall x, x ∈ observe_from 0 dated ->
          recent w days_filter x = true -> labelled topic x = true ->
          (forall y, y ∈ observe_from 0 dated -> (pos y < pos x)%nat ->
                     title (ent y) = title (ent x) -> recent w days_filter y = false) ->
          x ∈ kept)
    /\ (forall clock,
          (forall y, y ∈ observe_from 0 dated ->
                     recent (later_call w clock) days_filter y = recent w days_filter y) ->
          fetch_news (later_call w clock) topic days_filter = Ok df).
Proof.
  intros Hq Hd.
  pose proof (fetch_news_refines w topic days_filter urls dated Hq Hd) as Hf.
  set (all := observe_from 0 dated) in *.
  set (kept := filter (fun x => survives w topic days_filter all x = true) all).
  assert (Hkept : forall x, x ∈ all ->
            (x ∈ kept <->
             recent w days_filter x = true /\ labelled topic x = true /\
             forall y, y ∈ all -> (pos y < pos x)%nat ->
                       recent w days_filter y = true -> title (ent y) <> title (ent x))).
  { intros x Hx. unfold kept. rewrite list_elem_of_filter.
    unfold all. rewrite survives_spec. tauto. }
  assert (Hsub : forall x, x ∈ kept -> x ∈ all).
  { intros x Hx. now apply list_elem_of_filter in Hx as [_ Hx]. }
  eexists. exists kept. split; [exact Hf |]. cbn [rows].
  split; [apply sublist_filter |]. split; [reflexivity |].
  split; [| split; [exact Hkept | split; [| split; [| split]]]].
  - apply (fetch_news_rows_invariant w topic days_filter _ Hf).
  - intros x Hx Hr Hl.
    destruct (first_recent_exists w days_filter dated x Hx Hr)
      as (z & Hz & Hle & Htz & Hrz & Hfz).
    assert (Hzk : z ∈ kept).
    { apply list_elem_of_filter. split; [| exact Hz]. unfold survives.
      fold all in Hfz. rewrite Hrz, Hfz, (labelled_same_title topic z x Htz), Hl.
      reflexivity. }
    exists z. split; [exact Hzk |]. split; [exact Htz |]. split; [exact Hle |].
    intros y Hy Hty.
    destruct (proj1 (Hkept y (Hsub y Hy)) Hy) as (Hry & _ & Hfy).
    destruct (proj1 (Hkept z Hz) Hzk) as (_ & _ & Hfz').
    apply (observe_from_pos_inj dated); [now apply Hsub | exact Hz |].
    destruct (lt_eq_lt_dec (pos y) (pos z)) as [[Hlt | Heq] | Hlt]; [| exact Heq |].
    + destruct (Hfz' y (Hsub y Hy) Hlt Hry). congruence.
    + destruct (Hfy z Hz Hlt Hrz). congruence.
  - intros x y Hx Hy Hlt Ht Hr Hin.
    destruct (proj1 (Hkept y Hy) Hin) as (_ & _ & Hfirst).
    now apply (Hfirst x).
  - intros x Hx Hr Hl Hstale. apply (Hkept x Hx). split; [exact Hr |].
    split; [exact Hl |]. intros y Hy Hlt Hry Ht.
    rewrite (Hstale y Hy Hlt Ht) in Hry. discriminate.
  - intros clock Hsame. rewrite <- Hf.
    exact (fetch_news_later_call w clock topic days_filter urls dated Hq Hd Hsame).
Qed.

Lemma fetch_news_first_recent_title_witness :
  exists df kept,
    fetch_news (example_world stale_first_feeds) Protests_Against_Government 30 = Ok df
    /\ rows df = row_of Protests_Against_Government <$> kept
    /\ NoDup (Title <$> rows df)
    /\ {| pos := 1; ent := rally_new; stamp := 1793707200000000 |} ∈ kept
    /\ ({| pos := 0; ent := rally_old; stamp := 1782894600000000 |} ∉ kept)
    /\ URL <$> rows df = ["https://news.example/rally-november"].
Proof.
  destruct (fetch_news_first_recent_title (example_world stale_first_feeds)
              Protests_Against_Government 30 [protest_feed]
              [ (rally_old, 1782894600000000); (rally_new, 1793707200000000) ]
              eq_refl eq_refl)
    as (df & kept & Hf & _ & Hrows & Hdup & Hkept & _).
  exists df, kept. split; [exact Hf |]. split; [exact Hrows |]. split; [exact Hdup |].
  split; [| split].
  - apply Hkept.
    + apply list_elem_of_lookup. exists 1%nat. reflexivity.
    + split; [vm_compute; reflexivity |]. split; [vm_compute; reflexivity |].
      intros y Hy Hlt Hr. apply list_elem_of_lookup in Hy as [i Hi].
      destruct i as [|[|i]]; [| |discriminate].
      * injection Hi as <-. vm_compute in Hr. discriminate.
      * injection Hi as <-. cbn [pos] in Hlt. lia.
  - intros Hin. apply Hkept in Hin as [Hr _].
    + vm_compute in Hr. discriminate.
    + apply list_elem_of_lookup. exists 0%nat. reflexivity.
  - rewrite fetch_news_stale_first_example in Hf. injection Hf as <-. reflexivity.
Defined.

(** ** Loading and saving the correction file *)

Section CorrectionFacts.

Variable cell : Type.
Variable read_csv : list byte -> encoding -> result (DataFrame (list cell)).
Variable to_csv : DataFrame (list cell) -> list byte.

(** C6: without a correction file the loaded table is empty, has exactly the
    columns Title and Corrected Sentiment, and nothing is read or raised.
    With a file, when reading it as utf-8-sig raises UnicodeDecodeError the
    file is read once more, as ISO-8859-1, and the outcome of that second
    reading is the outcome of loading: an exception it raises is not caught.
    Any other outcome of the first reading is final and no second reading
    takes place. *)
Theorem load_feedback_cases (fs : gmap string (list byte)) :
  (fs !! feedback_file = None ->
     load_feedback cell read_csv fs =
       ([], Ok {| columns := ["Title"; "Corrected Sentiment"]; rows := [] |}))
  /\ (forall content,
        fs !! feedback_file = Some content ->
        read_csv content utf_8_sig = Raise UnicodeDecodeError ->
        load_feedback cell read_csv fs =
          ([utf_8_sig; ISO_8859_1], read_csv content ISO_8859_1)
        /\ (forall e, read_csv content ISO_8859_1 = Raise e ->
                      snd (load_feedback cell read_csv fs) = Raise e))
  /\ (forall content,
        fs !! feedback_file = Some content ->
        read_csv content utf_8_sig <> Raise UnicodeDecodeError ->
        load_feedback cell read_csv fs = ([utf_8_sig], read_csv content utf_8_sig)).
Proof.
  unfold load_feedback. split; [| split].
  - intros ->. reflexivity.
  - intros content -> ->. split; [reflexivity |]. now intros e ->.
  - intros content -> Hne.
    destruct (read_csv content utf_8_sig) as [df|[]]; try reflexivity.
    now destruct Hne.
Qed.

(** X1: saving and loading again hands the written bytes to the reader, under
    the same rule for the second reading; the program itself adds nothing
    to what the table library writes and reads. *)
Lemma load_after_save (feedback_df : DataFrame (list cell)) (fs : gmap string (list byte)) :
  snd (load_feedback cell read_csv (save_corrections cell to_csv feedback_df fs)) =
    match read_csv (to_csv feedback_df) utf_8_sig with
    | Raise UnicodeDecodeError => read_csv (to_csv feedback_df) ISO_8859_1
    | outcome => outcome
    end.
Proof.
  unfold load_feedback, save_corrections. rewrite lookup_insert_eq.
  destruct (read_csv (to_csv feedback_df) utf_8_sig) as [df|[]]; reflexivity.
Qed.

End CorrectionFacts.

Lemma load_feedback_cases_witness :
  load_feedback string failing_read_csv ∅ = ([], Ok (empty_corrections string))
  /\ load_feedback string failing_read_csv {[ feedback_file := [Byte.xff; Byte.xfe] ]}
     = ([utf_8_sig; ISO_8859_1], Raise (OtherError "ParserError")).
Proof.
  split.
  - apply (proj1 (load_feedback_cases string failing_read_csv ∅)). reflexivity.
  - apply (proj1 (proj2 (load_feedback_cases string failing_read_csv
                           {[ feedback_file := [Byte.xff; Byte.xfe] ]}))
                 [Byte.xff; Byte.xfe]); reflexivity.
Defined.

(* ================================================================== *)
(** * Further properties of the program *)
(* ================================================================== *)

(** ** The classifier *)

Lemma occurs_ci_app (kw pre text post : string) :
  occurs_ci kw text -> occurs_ci kw (pre +:+ text +:+ post).
Proof.
  intros (a & mid & b & -> & Hmid). exists (pre +:+ a), mid, (b +:+ post).
  split; [now rewrite !append_assoc | exact Hmid].
Qed.

Lemma any_in_app (words : list string) (pre text post : string) :
  Forall plain_keyword words ->
  Str.any_in words (Str.lower text) = true ->
  Str.any_in words (Str.lower (pre +:+ text +:+ post)) = true.
Proof.
  intros Hwords H. apply (any_in_lower_spec _ _ Hwords) in H as (kw & Hin & H).
  apply (any_in_lower_spec _ _ Hwords). exists kw. split; [exact Hin |].
  now apply occurs_ci_app.
Qed.

(** X2: the label of a headline does not depend on the case of its letters:
    two headlines that are equal once lowered get the same result under
    every topic, and lowering a headline first changes nothing. *)
Theorem classify_ignores_case (t1 t2 topic : string) :
  (Str.lower t1 = Str.lower t2 ->
     classify_governance_sentiment t1 topic = classify_governance_sentiment t2 topic)
  /\ classify_governance_sentiment (Str.lower t1) topic
     = classify_governance_sentiment t1 topic.
Proof.
  split.
  - intros H. unfold classify_governance_sentiment. now rewrite H.
  - unfold classify_governance_sentiment. now rewrite lower_idempotent.
Qed.

Lemma classify_ignores_case_witness :
  classify_governance_sentiment "STALIN SLAMS STRIKE" Protests_Against_Government
  = classify_governance_sentiment "Stalin slams strike" Protests_Against_Government.
Proof.
  apply (proj1 (classify_ignores_case "STALIN SLAMS STRIKE" "Stalin slams strike"
                  Protests_Against_Government)).
  vm_compute. reflexivity.
Defined.

Lemma classify_range_nonempty (text topic label : string) :
  classify_governance_sentiment text topic = Some label ->
  label ∈ [Misgovernance; Good_Governance; Anti_State; Anti_Central; General_Protest]
  /\ Str.nonempty label = true.
Proof.
  unfold classify_governance_sentiment.
  destruct (String.eqb topic Govt_Analysis).
  - destruct (Str.any_in misgovernance_words _);
      [| destruct (Str.any_in good_governance_words _)];
      intros [= <-]; (split; [apply list_elem_of_In; simpl; tauto | reflexivity]).
  - destruct (String.eqb topic Protests_Against_Government); [| discriminate].
    destruct (_ || _ || _); [| destruct (_ || _ || _)];
      intros [= <-]; (split; [apply list_elem_of_In; simpl; tauto | reflexivity]).
Qed.

Lemma truthy_classify (text topic : string) :
  truthy (classify_governance_sentiment text topic) = true <->
  classify_governance_sentiment text topic <> None.
Proof.
  destruct (classify_governance_sentiment text topic) as [label|] eqn:Hc; cbn [truthy].
  - destruct (classify_range_nonempty text topic label Hc) as [_ ->].
    split; [discriminate | reflexivity].
  - split; [discriminate | intros H; now destruct H].
Qed.

Lemma classify_protests_labelled (text : string) :
  classify_governance_sentiment text Protests_Against_Government <> None.
Proof.
  rewrite classify_protests_unfold.
  destruct (Str.any_in state_words _); [discriminate |].
  destruct (Str.any_in central_words _); discriminate.
Qed.

(** X3: whatever the headline and the topic, the classifier returns nothing
    or one of five labels, none of them the empty text; so the truth test
    applied to its result (line 58) holds exactly when a label was
    returned. *)
Theorem classify_labels (text topic : string) :
  (forall label,
     classify_governance_sentiment text topic = Some label ->
     label ∈ [Misgovernance; Good_Governance; Anti_State; Anti_Central; General_Protest]
     /\ Str.nonempty label = true)
  /\ (truthy (classify_governance_sentiment text topic) = true <->
      classify_governance_sentiment text topic <> None).
Proof.
  split.
  - intros label. apply classify_range_nonempty.
  - apply truthy_classify.
Qed.

(** X4: text added before or after a headline never takes away a label of
    first priority: a Misgovernance headline stays Misgovernance, an Anti TN
    State Government headline stays so, and a "Govt Analysis" headline that
    has a label keeps having one. *)
Theorem classify_extension (pre text post : string) :
  (classify_governance_sentiment text Govt_Analysis = Some Misgovernance ->
     classify_governance_sentiment (pre +:+ text +:+ post) Govt_Analysis
     = Some Misgovernance)
  /\ (classify_governance_sentiment text Protests_Against_Government = Some Anti_State ->
      classify_governance_sentiment (pre +:+ text +:+ post) Protests_Against_Government
      = Some Anti_State)
  /\ (classify_governance_sentiment text Govt_Analysis <> None ->
      classify_governance_sentiment (pre +:+ text +:+ post) Govt_Analysis <> None).
Proof.
  split; [| split].
  - rewrite !classify_govt_unfold.
    destruct (Str.any_in misgovernance_words (Str.lower text)) eqn:Hm.
    + intros _. now rewrite (any_in_app _ _ _ _ misgovernance_words_lower Hm).
    + destruct (Str.any_in good_governance_words (Str.lower text)); discriminate.
  - rewrite !classify_protests_unfold.
    destruct (Str.any_in state_words (Str.lower text)) eqn:Hs.
    + intros _. now rewrite (any_in_app _ _ _ _ state_words_lower Hs).
    + destruct (Str.any_in central_words (Str.lower text)); discriminate.
  - rewrite !classify_govt_unfold.
    destruct (Str.any_in misgovernance_words (Str.lower text)) eqn:Hm.
    + intros _. now rewrite (any_in_app _ _ _ _ misgovernance_words_lower Hm).
    + destruct (Str.any_in good_governance_words (Str.lower text)) eqn:Hg;
        [| intros H; now destruct H].
      intros _. rewrite (any_in_app _ _ _ _ good_governance_words_lower Hg).
      destruct (Str.any_in misgovernance_words (Str.lower (pre +:+ text +:+ post)));
        intros [=].
Qed.

Lemma classify_extension_witness :
  classify_governance_sentiment ("Opposition alleges " +:+ "corruption" +:+ " in growth scheme")
    Govt_Analysis = Some Misgovernance.
Proof.
  apply (proj1 (classify_extension "Opposition alleges " "corruption" " in growth scheme")).
  reflexivity.
Defined.

(** ** Which titles a call returns *)

Lemma titles_invariant_step (w : world) (topic : string) (days_filter : Z)
    (st : loop_state) (e : entry) (st' : loop_state) :
  titles_invariant st ->
  process_entry w topic days_filter st e = Ok st' ->
  titles_invariant st'.
Proof.
  intros Hinv Hstep t.
  apply process_entry_cases in Hstep
    as [[Hdata Hset] | (p & label & _ & _ & Hdata & Hset)]; rewrite Hdata, Hset.
  - apply Hinv.
  - rewrite fmap_app, elem_of_app, elem_of_union, elem_of_singleton, (Hinv t).
    cbn. rewrite list_elem_of_singleton. tauto.
Qed.

Lemma loop_invariant_run (w : world) (topic : string) (days_filter : Z)
    (l : list (entry * Z)) :
  forall (pre : list (entry * Z)) (st : loop_state),
    Forall (fun ep => strptime w (published ep.1) = Some ep.2) l ->
    loop_invariant w topic days_filter pre st ->
    exists st',
      for_each (process_entry w topic days_filter) st (l.*1) = Ok st' /\
      loop_invariant w topic days_filter (pre ++ l) st'.
Proof.
  induction l as [|[e p] l IH]; intros pre st Hparse Hinv.
  - exists st. split; [reflexivity | now rewrite app_nil_r].
  - apply Forall_cons in Hparse as [Hp Hparse]. simpl in Hp.
    destruct (loop_step w topic days_filter pre st e p
                (observe_from 0 (pre ++ [])) Hinv Hp (take_observed_prefix pre []))
      as (st1 & Hstep & Hinv1 & _).
    destruct (IH (pre ++ [(e, p)]) st1 Hparse Hinv1) as (st' & Hrun & Hinv').
    exists st'. split.
    + cbn [fmap list_fmap for_each fst]. rewrite Hstep. exact Hrun.
    + now rewrite <- app_assoc in Hinv'.
Qed.

Lemma observed_elem_spec (w : world) (stream : list entry) (dated : list (entry * Z))
    (y : observed) :
  parse_dates w stream = Some dated ->
  y ∈ observe_from 0 dated <->
  stream !! pos y = Some (ent y) /\ strptime w (published (ent y)) = Some (stamp y).
Proof.
  intros Hd. apply parse_dates_spec in Hd as [<- Hparse]. split.
  - intros Hy. apply list_elem_of_lookup in Hy as [i Hi].
    destruct (observe_from_lookup 0 i dated y Hi) as (ep & Hep & ->). cbn.
    split.
    + now rewrite list_lookup_fmap, Hep.
    + rewrite Forall_lookup in Hparse. exact (Hparse i ep Hep).
  - intros [Hs Hp]. rewrite list_lookup_fmap in Hs.
    destruct (dated !! pos y) as [ep|] eqn:Hep; [| discriminate].
    cbn in Hs. injection Hs as He.
    rewrite Forall_lookup in Hparse. pose proof (Hparse _ _ Hep) as Hp'.
    rewrite He, Hp in Hp'. injection Hp' as Hst.
    apply list_elem_of_lookup. exists (pos y).
    unfold observe_from. rewrite list_lookup_imap, Hep. cbn.
    destruct y as [i e p]. cbn in *. now subst.
Qed.

Lemma fetch_news_titles_spec (w : world) (topic : string) (days_filter : Z)
    (urls : list string) (dated : list (entry * Z)) :
  search_queries !! topic = Some urls ->
  parse_dates w (feed_stream w urls) = Some dated ->
  exists df,
    fetch_news w topic days_filter = Ok df /\
    forall t, t ∈ Title <$> rows df <->
      exists i e, eligible_at w topic days_filter (feed_stream w urls) i e /\ title e = t.
Proof.
  intros Hq Hd.
  pose proof (proj1 (parse_dates_spec _ _ _) Hd) as [Hstream Hparse].
  destruct (loop_invariant_run w topic days_filter dated [] initial_state Hparse
              (loop_invariant_initial w topic days_filter)) as (st & Hrun & [_ Hseen]).
  rewrite Hstream in Hrun. cbn [app] in Hseen.
  assert (Htitles : titles_invariant st).
  { apply (for_each_invariant titles_invariant
             (process_entry w topic days_filter) (feed_stream w urls)
             (fun s x s' => titles_invariant_step w topic days_filter s x s')
             initial_state st); [| exact Hrun].
    intros t. cbn. split; intros H.
    - now apply not_elem_of_empty in H.
    - now apply not_elem_of_nil in H. }
  eexists. split.
  { rewrite (fetch_news_unfold w topic days_filter urls Hq), Hrun. reflexivity. }
  cbn [rows]. intros t. rewrite <- (Htitles t), (Hseen t). split.
  - intros (y & Hy & Hr & Hl & Ht).
    apply (observed_elem_spec w _ _ y Hd) in Hy as [Hs Hp].
    exists (pos y), (ent y). split; [| exact Ht]. split; [exact Hs |].
    exists (stamp y). split; [exact Hp |]. split; [exact Hr |].
    now apply truthy_classify.
  - intros (i & e & (Hs & p & Hp & Hr & Hl) & Ht).
    exists {| pos := i; ent := e; stamp := p |}. split; [| split; [exact Hr | split]].
    + now apply (observed_elem_spec w _ _ _ Hd).
    + unfold labelled. cbn. now apply truthy_classify.
    + exact Ht.
Qed.

(** X5: a title is in the returned table exactly when some entry of the
    topic's feeds carries it, passes the recency filter at the clock reading
    taken for it, and gets a label from the classifier: no such title is
    lost, and no other title appears. *)
Theorem fetch_news_titles (w : world) (topic : string) (days_filter : Z)
    (urls : list string) (dated : list (entry * Z)) :
  search_queries !! topic = Some urls ->
  parse_dates w (feed_stream w urls) = Some dated ->
  exists df,
    fetch_news w topic days_filter = Ok df /\
    forall t, t ∈ Title <$> rows df <->
      exists i e, eligible_at w topic days_filter (feed_stream w urls) i e /\ title e = t.
Proof. exact (fetch_news_titles_spec w topic days_filter urls dated). Qed.

Lemma fetch_news_titles_witness :
  exists df,
    fetch_news (example_world stale_first_feeds) Protests_Against_Government 30 = Ok df
    /\ "DMK rally brings Chennai to a halt" ∈ Title <$> rows df.
Proof.
  destruct (fetch_news_titles (example_world stale_first_feeds)
              Protests_Against_Government 30 [protest_feed]
              [ (rally_old, 1782894600000000); (rally_new, 1793707200000000) ]
              eq_refl eq_refl) as (df & Hf & Ht).
  exists df. split; [exact Hf |]. apply Ht. exists 1%nat, rally_new.
  split; [| reflexivity]. split; [reflexivity |].
  exists 1793707200000000. split; [reflexivity |]. split; [reflexivity | discriminate].
Defined.

(** ** The width of the recency window *)

Lemma passes_recency_filter_spec (now p days_filter : Z) :
  passes_recency_filter now p days_filter = true <->
  now - p < (days_filter + 1) * microseconds_per_day.
Proof.
  unfold passes_recency_filter. rewrite Z.leb_le.
  pose proof (proj1 (days_ago_spec now p (days_ago now p)) eq_refl) as H.
  unfold microseconds_per_day in *. split; intros Hd; nia.
Qed.

(** X6: the recency test keeps an entry exactly when it was published less
    than [days_filter + 1] days before the clock reading; so an entry dated
    after the reading is kept for every window of 0 days or more, and the
    window named "Today" (1 day) keeps entries up to 48 hours old. *)
Theorem recency_window_width (now p days_filter : Z) :
  (passes_recency_filter now p days_filter = true <->
     now - p < (days_filter + 1) * microseconds_per_day)
  /\ (0 <= days_filter -> now <= p -> passes_recency_filter now p days_filter = true)
  /\ (time_option "Today" = Ok 1 /\
      (passes_recency_filter now p 1 = true <-> now - p < 2 * microseconds_per_day)).
Proof.
  split; [apply passes_recency_filter_spec |]. split.
  - intros Hd Hp. apply passes_recency_filter_spec. unfold microseconds_per_day. lia.
  - split; [reflexivity |]. rewrite passes_recency_filter_spec. reflexivity.
Qed.

Lemma recency_window_width_witness :
  passes_recency_filter noon_3_nov_2026 (noon_3_nov_2026 + 3600000000) 0 = true.
Proof.
  apply (proj1 (proj2 (recency_window_width noon_3_nov_2026
                         (noon_3_nov_2026 + 3600000000) 0))).
  - lia.
  - unfold noon_3_nov_2026. lia.
Defined.

(** X7: with the same feeds and the same clock readings, a wider window never
    loses a title: every title returned for [d] days is returned for
    [d' >= d] days, and the table for [d'] has at least as many rows. *)
Theorem fetch_news_wider_window (w : world) (topic : string) (d d' : Z)
    (urls : list string) (dated : list (entry * Z)) :
  search_queries !! topic = Some urls ->
  parse_dates w (feed_stream w urls) = Some dated ->
  d <= d' ->
  exists df df',
    fetch_news w topic d = Ok df /\
    fetch_news w topic d' = Ok df' /\
    (forall t, t ∈ Title <$> rows df -> t ∈ Title <$> rows df') /\
    (length (rows df) <= length (rows df'))%nat.
Proof.
  intros Hq Hd Hle.
  destruct (fetch_news_titles_spec w topic d urls dated Hq Hd) as (df & Hf & Ht).
  destruct (fetch_news_titles_spec w topic d' urls dated Hq Hd) as (df' & Hf' & Ht').
  assert (Hsub : forall t, t ∈ Title <$> rows df -> t ∈ Title <$> rows df').
  { intros t Hin. apply Ht'. apply Ht in Hin as (i & e & (Hs & p & Hp & Hr & Hl) & He).
    exists i, e. split; [| exact He]. split; [exact Hs |]. exists p.
    split; [exact Hp |]. split; [| exact Hl].
    apply passes_recency_filter_spec. apply passes_recency_filter_spec in Hr.
    unfold microseconds_per_day in *. lia. }
  exists df, df'. split; [exact Hf |]. split; [exact Hf' |]. split; [exact Hsub |].
  destruct (fetch_news_rows_invariant w topic d df Hf) as (_ & _ & Hdup).
  rewrite <- (length_fmap Title (rows df)), <- (length_fmap Title (rows df')).
  apply submseteq_length, NoDup_submseteq; [exact Hdup | exact Hsub].
Qed.

Lemma fetch_news_wider_window_witness :
  exists df df',
    fetch_news (example_world boundary_feeds) Protests_Against_Government 30 = Ok df /\
    fetch_news (example_world boundary_feeds) Protests_Against_Government 60 = Ok df' /\
    (length (rows df) <= length (rows df'))%nat.
Proof.
  destruct (fetch_news_wider_window (example_world boundary_feeds)
              Protests_Against_Government 30 60 [protest_feed]
              [ (strike_31_days, 1791028800000000); (strike_30_days, 1791115200000000) ]
              eq_refl eq_refl ltac:(lia)) as (df & df' & Hf & Hf' & _ & Hlen).
  exists df, df'. split; [exact Hf |]. split; [exact Hf' | exact Hlen].
Defined.

(** ** Where the rows come from *)

(** X8: every row of a returned table is built from one entry of the topic's
    feeds: it carries the topic of the call, the title and the link of that
    entry, the calendar day of its parsed date and the label the classifier
    gives its title. The table never has more rows than the feeds have
    entries. *)
Theorem fetch_news_rows_from_entries (w : world) (topic : string) (days_filter : Z)
    (urls : list string) (df : DataFrame news_item) :
  search_queries !! topic = Some urls ->
  fetch_news w topic days_filter = Ok df ->
  (forall r, r ∈ rows df ->
     Category r = topic /\
     exists e p,
       e ∈ feed_stream w urls /\
       strptime w (published e) = Some p /\
       Title r = title e /\ URL r = link e /\ Published_Date r = date_of p /\
       classify_governance_sentiment (title e) topic = Some (Sentiment r))
  /\ (length (rows df) <= length (feed_stream w urls))%nat.
Proof.
  intros Hq Hf.
  destruct (fetch_news_ok_parsed w topic days_filter df Hf) as (urls' & dated & Hq' & Hd).
  rewrite Hq in Hq'. injection Hq' as <-.
  pose proof (fetch_news_refines w topic days_filter urls dated Hq Hd) as Hr.
  rewrite Hf in Hr. injection Hr as ->. cbn [rows]. unfold surviving_rows. split.
  - intros r Hin. apply list_elem_of_fmap in Hin as (x & -> & Hx).
    apply list_elem_of_filter in Hx as [Hs Hx].
    apply (observed_elem_spec w _ _ x Hd) in Hx as [Hlook Hp].
    split; [reflexivity |]. exists (ent x), (stamp x).
    split; [apply list_elem_of_lookup; eauto |]. split; [exact Hp |].
    cbn. repeat split.
    unfold survives in Hs. apply andb_prop in Hs as [_ Hl]. unfold labelled in Hl.
    destruct (classify_governance_sentiment (title (ent x)) topic); [reflexivity |].
    discriminate.
  - rewrite length_fmap. etransitivity; [apply length_filter |].
    rewrite observe_from_length.
    apply parse_dates_spec in Hd as [<- _]. now rewrite length_fmap.
Qed.

Lemma fetch_news_rows_from_entries_witness :
  exists df,
    fetch_news (example_world govt_feeds) Govt_Analysis 30 = Ok df
    /\ (length (rows df) <= 3)%nat.
Proof.
  exists {| columns := news_columns;
            rows := surviving_rows (example_world govt_feeds) Govt_Analysis 30
                      (observe_from 0 [ (scandal, 1793524500000000);
                                        (record_growth, 1792519200000000);
                                        (water_success, 1793602800000000) ]) |}.
  assert (Hf : fetch_news (example_world govt_feeds) Govt_Analysis 30 =
               Ok {| columns := news_columns;
                     rows := surviving_rows (example_world govt_feeds) Govt_Analysis 30
                       (observe_from 0 [ (scandal, 1793524500000000);
                                         (record_growth, 1792519200000000);
                                         (water_success, 1793602800000000) ]) |})
    by (vm_compute; reflexivity).
  split; [exact Hf |].
  exact (proj2 (fetch_news_rows_from_entries (example_world govt_feeds) Govt_Analysis 30
                  [misgovernance_feed; good_governance_feed] _ eq_refl Hf)).
Defined.

(** X9: no row is older than the window allows: when no clock reading of the
    call lies before [start], the published day of every returned row is at
    most [days_filter + 1] calendar days before the day of [start]. *)
Theorem fetch_news_rows_within_window (w : world) (topic : string) (days_filter : Z)
    (df : DataFrame news_item) (start : Z) :
  fetch_news w topic days_filter = Ok df ->
  (forall k, start <= utcnow w k) ->
  forall r, r ∈ rows df -> date_of start - days_filter - 1 <= Published_Date r.
Proof.
  intros Hf Hclock r Hin.
  destruct (fetch_news_ok_parsed w topic days_filter df Hf) as (urls & dated & Hq & Hd).
  pose proof (fetch_news_refines w topic days_filter urls dated Hq Hd) as Hr.
  rewrite Hf in Hr. injection Hr as ->. cbn [rows] in Hin. unfold surviving_rows in Hin.
  apply list_elem_of_fmap in Hin as (x & -> & Hx).
  apply list_elem_of_filter in Hx as [Hs _].
  unfold survives in Hs. apply andb_prop in Hs as [Hs _].
  apply andb_prop in Hs as [Hrec _]. unfold recent in Hrec.
  apply passes_recency_filter_spec in Hrec. specialize (Hclock (pos x)).
  cbn. unfold date_of, microseconds_per_day in *.
  pose proof (Z.div_mod start 86400000000). pose proof (Z.mod_pos_bound start 86400000000).
  pose proof (Z.div_mod (stamp x) 86400000000).
  pose proof (Z.mod_pos_bound (stamp x) 86400000000). lia.
Qed.

Lemma fetch_news_rows_within_window_witness :
  date_of noon_3_nov_2026 - 30 - 1 <= 20760.
Proof.
  apply (fetch_news_rows_within_window (example_world stale_first_feeds)
           Protests_Against_Government 30 _ noon_3_nov_2026
           fetch_news_stale_first_example
           (fun k => ltac:(unfold example_world, example_clock; cbn; lia))
           {| Category := "Protests Against Government";
              Title := "DMK rally brings Chennai to a halt";
              Published_Date := 20760;
              URL := "https://news.example/rally-november";
              Sentiment := "Anti TN State Government" |}).
  apply list_elem_of_singleton. reflexivity.
Defined.

(** ** Calls that return no row, and calls that fail *)

Lemma fetch_news_missing_topic (w : world) (topic : string) (days_filter : Z) :
  search_queries !! topic = None ->
  fetch_news w topic days_filter = Raise (KeyError topic).
Proof. intros Hq. unfold fetch_news. now rewrite Hq. Qed.

Lemma search_queries_keys (topic : string) :
  search_queries !! topic = None <->
  topic <> Govt_Analysis /\ topic <> Protests_Against_Government.
Proof.
  unfold search_queries. split.
  - intros H. split; intros ->.
    + now rewrite lookup_insert_eq in H.
    + rewrite lookup_insert_ne in H
        by (unfold Govt_Analysis, Protests_Against_Government; discriminate).
      now rewrite lookup_insert_eq in H.
  - intros [Hg Hp]. rewrite lookup_insert_ne by congruence.
    rewrite lookup_insert_ne by congruence. apply lookup_empty.
Qed.

Lemma feed_stream_no_entries (w : world) (urls : list string) :
  (forall url, url ∈ urls -> feedparser_parse w url = []) -> feed_stream w urls = [].
Proof.
  unfold feed_stream. induction urls as [|url urls IH]; intros H; [reflexivity |].
  rewrite bind_cons, (H url) by (apply elem_of_cons; now left). cbn [app].
  apply IH. intros u Hu. apply H. apply elem_of_cons. now right.
Qed.

(** X11: when none of the topic's feeds has an entry, the call returns the
    table with the five columns and no row. *)
Theorem fetch_news_empty_feeds (w : world) (topic : string) (days_filter : Z)
    (urls : list string) :
  search_queries !! topic = Some urls ->
  (forall url, url ∈ urls -> feedparser_parse w url = []) ->
  fetch_news w topic days_filter =
    Ok {| columns := ["Category"; "Title"; "Published Date"; "URL"; "Sentiment"];
          rows := [] |}.
Proof.
  intros Hq Hempty. rewrite (fetch_news_unfold w topic days_filter urls Hq).
  now rewrite (feed_stream_no_entries w urls Hempty).
Qed.

Lemma fetch_news_empty_feeds_witness :
  fetch_news (example_world no_entries) Govt_Analysis 90 =
    Ok {| columns := ["Category"; "Title"; "Published Date"; "URL"; "Sentiment"];
          rows := [] |}.
Proof.
  apply (fetch_news_empty_feeds (example_world no_entries) Govt_Analysis 90
           [misgovernance_feed; good_governance_feed]).
  - reflexivity.
  - intros url _. reflexivity.
Defined.

(** A call on a configured topic either returns a table or raises the
    ValueError of an entry whose date does not parse. *)
Lemma fetch_news_outcomes (w : world) (topic : string) (days_filter : Z)
    (urls : list string) :
  search_queries !! topic = Some urls ->
  (exists df, fetch_news w topic days_filter = Ok df)
  \/ (exists e, e ∈ feed_stream w urls /\ strptime w (published e) = None /\
                fetch_news w topic days_filter = Raise (ValueError (published e))).
Proof.
  intros Hq. destruct (parse_dates w (feed_stream w urls)) as [dated|] eqn:Hd.
  - left. eexists. exact (fetch_news_refines w topic days_filter urls dated Hq Hd).
  - right. unfold parse_dates in Hd.
    assert (Hbad : exists e, e ∈ feed_stream w urls /\ strptime w (published e) = None).
    { apply eq_None_not_Some in Hd. rewrite mapM_is_Some in Hd.
      apply not_Forall_Exists in Hd; [| intros e; apply _].
      apply Exists_exists in Hd as (e & Hin & He). exists e. split; [exact Hin |].
      cbn in He. destruct (strptime w (published e)); [| reflexivity].
      destruct He. cbn. eauto. }
    destruct (for_each_unparsed w topic days_filter (feed_stream w urls) initial_state Hbad)
      as (bad & Hin & Hnone & Hraise).
    exists bad. split; [exact Hin |]. split; [exact Hnone |].
    now rewrite (fetch_news_unfold w topic days_filter urls Hq), Hraise.
Qed.

(** X10: a call raises KeyError exactly when its topic is neither "Govt
    Analysis" nor "Protests Against Government"; the key of the error is the
    topic, and the outcome is this one whatever the feeds hold, the parser
    accepts or the clock reads. *)
Theorem fetch_news_key_error (w : world) (topic : string) (days_filter : Z) :
  ((exists key, fetch_news w topic days_filter = Raise (KeyError key)) <->
   topic <> Govt_Analysis /\ topic <> Protests_Against_Government)
  /\ (forall key, fetch_news w topic days_filter = Raise (KeyError key) -> key = topic)
  /\ (forall w', topic <> Govt_Analysis -> topic <> Protests_Against_Government ->
                 fetch_news w' topic days_filter = Raise (KeyError topic)).
Proof.
  assert (Hkey : forall key, fetch_news w topic days_filter = Raise (KeyError key) ->
                             search_queries !! topic = None /\ key = topic).
  { intros key Hf. destruct (search_queries !! topic) as [urls|] eqn:Hq.
    - destruct (fetch_news_outcomes w topic days_filter urls Hq)
        as [[df Hdf] | (e & _ & _ & He)]; rewrite Hf in *; discriminate.
    - rewrite (fetch_news_missing_topic w topic days_filter Hq) in Hf.
      injection Hf as <-. now split. }
  split; [split |]; [| | split].
  - intros [key Hf]. apply search_queries_keys. now destruct (Hkey key Hf).
  - intros Hne. exists topic. apply fetch_news_missing_topic.
    now apply search_queries_keys.
  - intros key Hf. now destruct (Hkey key Hf).
  - intros w' Hg Hp. apply fetch_news_missing_topic. now apply search_queries_keys.
Qed.

Lemma fetch_news_key_error_witness :
  fetch_news (example_world broken_feeds) "Sports" 30 = Raise (KeyError "Sports").
Proof.
  apply (proj2 (proj2 (fetch_news_key_error (example_world govt_feeds) "Sports" 30)));
    unfold Govt_Analysis, Protests_Against_Government; discriminate.
Defined.

Lemma df_selected_govt_fetch (w : world) (days : Z) :
  df_selected_govt w days = fetch_news w Govt_Analysis days.
Proof.
  unfold df_selected_govt.
  destruct (fetch_news w Govt_Analysis days) as [df|e] eqn:Hf; [| reflexivity].
  cbn. f_equal. apply isin_Sentiment_id.
  destruct (fetch_news_rows_invariant w Govt_Analysis days df Hf) as (_ & Hlab & _).
  eapply Forall_impl; [exact Hlab |]. intros r [_ Hc]. exact (classify_govt_range _ _ Hc).
Qed.

Lemma df_selected_protests_fetch (w : world) (days : Z) :
  df_selected_protests w days = fetch_news w Protests_Against_Government days.
Proof.
  unfold df_selected_protests.
  destruct (fetch_news w Protests_Against_Government days) as [df|e] eqn:Hf;
    [| reflexivity].
  cbn. f_equal. apply isin_Sentiment_id.
  destruct (fetch_news_rows_invariant w Protests_Against_Government days df Hf)
    as (_ & Hlab & _).
  eapply Forall_impl; [exact Hlab |]. intros r [_ Hc].
  exact (classify_protests_range _ _ Hc).
Qed.

Lemma time_option_offered (selected_time : string) :
  selected_time ∈ time_option_names ->
  exists days, time_option selected_time = Ok days /\ 1 <= days <= 90.
Proof.
  unfold time_option_names, time_options. cbn [fmap list_fmap fst].
  intros H. repeat (apply elem_of_cons in H as [-> | H]);
    [exists 1 | exists 10 | exists 30 | exists 60 | exists 90
     | now apply not_elem_of_nil in H];
    (split; [vm_compute; reflexivity | lia]).
Qed.

(** X12: for every name the select box of a tab offers, the day count is
    found and lies between 1 and 90, and neither tab stops with a KeyError:
    no key is missing from [time_options] or from [search_queries]. *)
Theorem tabs_find_their_keys (w : world) (selected_time : string) :
  selected_time ∈ time_option_names ->
  (exists days, time_option selected_time = Ok days /\ 1 <= days <= 90)
  /\ (forall key, tab1_df_selected w selected_time <> Raise (KeyError key))
  /\ (forall key, tab2_df_selected w selected_time <> Raise (KeyError key)).
Proof.
  intros Hin. destruct (time_option_offered selected_time Hin) as (days & Hopt & Hrange).
  split; [now exists days |]. split; intros key.
  - unfold tab1_df_selected. rewrite Hopt. cbn [mbind result_mbind result_bind].
    rewrite df_selected_govt_fetch.
    destruct (fetch_news_outcomes w Govt_Analysis days _ search_queries_govt)
      as [[df ->] | (e & _ & _ & ->)]; discriminate.
  - unfold tab2_df_selected. rewrite Hopt. cbn [mbind result_mbind result_bind].
    rewrite df_selected_protests_fetch.
    destruct (fetch_news_outcomes w Protests_Against_Government days _
                search_queries_protests)
      as [[df ->] | (e & _ & _ & ->)]; discriminate.
Qed.

Lemma tabs_find_their_keys_witness :
  time_option "Last 30 Days" = Ok 30
  /\ tab1_df_selected (example_world broken_feeds) "Last 30 Days"
     <> Raise (KeyError "Govt Analysis").
Proof.
  assert (Hin : "Last 30 Days" ∈ time_option_names)
    by (apply list_elem_of_lookup; exists 2%nat; reflexivity).
  split; [vm_compute; reflexivity |].
  exact (proj1 (proj2 (tabs_find_their_keys (example_world broken_feeds)
                         "Last 30 Days" Hin)) "Govt Analysis").
Defined.

(** ** Tables without rows *)

Lemma DataFrame_empty_spec {R : Type} (df : DataFrame R) :
  DataFrame_empty df = true <-> rows df = [].
Proof. unfold DataFrame_empty. destruct (rows df); split; congruence. Qed.

Lemma fmap_nil_iff {A B : Type} (f : A -> B) (l : list A) : f <$> l = [] <-> l = [].
Proof. destruct l; split; intros H; try reflexivity; discriminate. Qed.

(** X13: the table a call returns has no row exactly when no entry of the
    topic's feeds both passes the recency filter and gets a label; under
    "Protests Against Government", where every headline gets a label, exactly
    when no entry passes the recency filter. *)
Theorem fetch_news_empty_table (w : world) (topic : string) (days_filter : Z)
    (urls : list string) (df : DataFrame news_item) :
  search_queries !! topic = Some urls ->
  fetch_news w topic days_filter = Ok df ->
  (DataFrame_empty df = true <->
   forall i e, ~ eligible_at w topic days_filter (feed_stream w urls) i e)
  /\ (topic = Protests_Against_Government ->
      (DataFrame_empty df = true <->
       forall i e p,
         feed_stream w urls !! i = Some e ->
         strptime w (published e) = Some p ->
         passes_recency_filter (utcnow w i) p days_filter = false)).
Proof.
  intros Hq Hf.
  assert (Hgen : DataFrame_empty df = true <->
                 forall i e, ~ eligible_at w topic days_filter (feed_stream w urls) i e).
  { destruct (fetch_news_ok_parsed w topic days_filter df Hf) as (urls' & dated & Hq' & Hd).
    rewrite Hq in Hq'. injection Hq' as <-.
    destruct (fetch_news_titles_spec w topic days_filter urls dated Hq Hd)
      as (df' & Hf' & Ht).
    rewrite Hf in Hf'. injection Hf' as <-.
    rewrite DataFrame_empty_spec, <- (fmap_nil_iff Title). split.
    - intros Hnil i e He.
      assert (Hin : title e ∈ Title <$> rows df) by (apply Ht; eauto).
      rewrite Hnil in Hin. now apply not_elem_of_nil in Hin.
    - intros Hnone. destruct (Title <$> rows df) as [|t ts] eqn:Hts; [reflexivity |].
      assert (Hin : t ∈ t :: ts) by (apply elem_of_cons; now left).
      apply Ht in Hin as (i & e & He & _). now destruct (Hnone i e). }
  split; [exact Hgen |]. intros ->. rewrite Hgen. split.
  - intros Hnone i e p Hs Hp.
    destruct (passes_recency_filter (utcnow w i) p days_filter) eqn:Hr; [| reflexivity].
    destruct (Hnone i e). split; [exact Hs |]. exists p. split; [exact Hp |].
    split; [exact Hr |]. apply classify_protests_labelled.
  - intros Hnone i e (Hs & p & Hp & Hr & _). rewrite (Hnone i e p Hs Hp) in Hr.
    discriminate.
Qed.

Lemma fetch_news_empty_table_witness :
  exists df,
    fetch_news (example_world quiet_feeds) Govt_Analysis 30 = Ok df
    /\ feed_stream (example_world quiet_feeds) [misgovernance_feed; good_governance_feed]
       = [monsoon; old_scandal]
    /\ DataFrame_empty df = true.
Proof.
  destruct (fetch_news_outcomes (example_world quiet_feeds) Govt_Analysis 30 _
              search_queries_govt) as [[df Hf] | (e & Hin & Hnone & _)].
  - exists df. split; [exact Hf |]. split; [reflexivity |].
    apply (proj1 (fetch_news_empty_table (example_world quiet_feeds) Govt_Analysis 30
                    [misgovernance_feed; good_governance_feed] df
                    search_queries_govt Hf)).
    intros i e (Hs & p & Hp & Hr & Hl).
    destruct i as [|[|i]]; [| | discriminate].
    + injection Hs as <-. apply Hl. vm_compute. reflexivity.
    + injection Hs as <-. injection Hp as <-. vm_compute in Hr. discriminate.
  - apply list_elem_of_lookup in Hin as [i Hi].
    destruct i as [|[|i]]; [| | discriminate];
      injection Hi as <-; vm_compute in Hnone; discriminate.
Defined.

(** ** The counts behind the charts *)

Lemma sentiment_count_cons (label : string) (cols : list string) (r : news_item)
    (rs : list news_item) :
  sentiment_count label {| columns := cols; rows := r :: rs |} =
    ((if decide (Sentiment r = label) then 1 else 0)
     + sentiment_count label {| columns := cols; rows := rs |})%nat.
Proof.
  unfold sentiment_count. cbn [rows]. rewrite filter_cons.
  destruct (decide (Sentiment r = label)); reflexivity.
Qed.

(** X14: the label counts behind the charts account for every row exactly
    once: for "Govt Analysis" the counts of Misgovernance and Good Governance
    add up to the number of rows, for "Protests Against Government" the
    counts of its three labels do. *)
Theorem sentiment_counts_cover (w : world) (days : Z) (df : DataFrame news_item) :
  (df_selected_govt w days = Ok df ->
     (sentiment_count Misgovernance df + sentiment_count Good_Governance df
      = length (rows df))%nat)
  /\ (df_selected_protests w days = Ok df ->
      (sentiment_count Anti_State df + sentiment_count Anti_Central df
       + sentiment_count General_Protest df = length (rows df))%nat).
Proof.
  split.
  - rewrite df_selected_govt_fetch. intros Hf.
    destruct (fetch_news_rows_invariant w Govt_Analysis days df Hf) as (_ & Hlab & _).
    clear Hf. destruct df as [cols rs]. cbn [rows] in *.
    induction Hlab as [|r rs [_ Hr] _ IH]; [reflexivity |].
    rewrite !sentiment_count_cons. cbn [length]. rewrite <- IH.
    apply classify_govt_range in Hr. unfold govt_labels in Hr.
    apply elem_of_cons in Hr as [-> | Hr];
      [| apply list_elem_of_singleton in Hr; rewrite Hr];
      repeat case_decide; try discriminate; try congruence; lia.
  - rewrite df_selected_protests_fetch. intros Hf.
    destruct (fetch_news_rows_invariant w Protests_Against_Government days df Hf)
      as (_ & Hlab & _).
    clear Hf. destruct df as [cols rs]. cbn [rows] in *.
    induction Hlab as [|r rs [_ Hr] _ IH]; [reflexivity |].
    rewrite !sentiment_count_cons. cbn [length]. rewrite <- IH.
    apply classify_protests_range in Hr. unfold protest_labels in Hr.
    apply elem_of_cons in Hr as [-> | Hr];
      [| apply elem_of_cons in Hr as [-> | Hr];
         [| apply list_elem_of_singleton in Hr; rewrite Hr]];
      repeat case_decide; try discriminate; try congruence; lia.
Qed.

Lemma sentiment_counts_cover_witness :
  exists df,
    df_selected_govt (example_world govt_feeds) 30 = Ok df
    /\ sentiment_count Misgovernance df = 1%nat
    /\ sentiment_count Good_Governance df = 2%nat
    /\ length (rows df) = 3%nat.
Proof.
  destruct (fetch_news_outcomes (example_world govt_feeds) Govt_Analysis 30 _
              search_queries_govt) as [[df Hf] | (e & _ & _ & Hf)].
  - rewrite <- df_selected_govt_fetch in Hf. exists df. split; [exact Hf |].
    pose proof (proj1 (sentiment_counts_cover (example_world govt_feeds) 30 df) Hf) as Hsum.
    assert (Hdf : Ok df = fetch_news (example_world govt_feeds) Govt_Analysis 30)
      by (rewrite <- Hf; apply df_selected_govt_fetch).
    rewrite fetch_news_govt_example in Hdf. injection Hdf as ->.
    split; [vm_compute; reflexivity |]. split; [vm_compute; reflexivity |].
    rewrite <- Hsum. vm_compute. reflexivity.
  - rewrite fetch_news_govt_example in Hf. discriminate.
Defined.
